(** * streamlit_investor_app.py: a shallow embedding and its properties

    The script renders one investor page through the Streamlit host.  Its
    only computation is [generate_performance_data]: four seeded random
    walks over NumPy float64 arrays, each rescaled to end on a literal
    target.  Three chart builders produce Plotly figures and [main] emits
    the page, block after block.

    The embedding keeps the shape of the script:
    - NumPy float64 values are IEEE 754 binary64 numbers ([spec_float] with
      precision 53 and maximal exponent 1024), so every [+], [*] and [/]
      below rounds the way the array operations do;
    - NumPy's global generator is an interface ([RNG]): the script only
      seeds it and draws standard normal deviates from it;
    - Python objects that are shared and mutated (the DataFrame, the
      figures) live in a store indexed by object identity;
    - calls into the Streamlit host are recorded, in order, in the world;
    - a Python exception is a result of the computation ([Raise]).

    Left out: the two statements the module runs before [main] (the page
    configuration and the style sheet), the keyword arguments of the host
    calls, and the inner tags and inline styles of the markup blocks. *)

From Stdlib Require Import ZArith QArith Qabs List String Ascii Bool Lia.
From Stdlib Require Import Floats.SpecFloat.
From stdpp Require Import base option list gmap strings.

Import ListNotations.
Local Open Scope string_scope.
Local Open Scope list_scope.
Local Open Scope Z_scope.

(** ** Numbers *)

(** IEEE 754 binary64, the element type of the arrays ([np.float64]) and of
    Python's [float]. *)
Module Binary64.

Definition prec : Z := 53.
Definition emax : Z := 1024.

Definition float64 : Type := spec_float.

Definition add : float64 -> float64 -> float64 := SFadd prec emax.
Definition mul : float64 -> float64 -> float64 := SFmul prec emax.
Definition div : float64 -> float64 -> float64 := SFdiv prec emax.
Definition ltb : float64 -> float64 -> bool := SFltb.

(** [float(z)] for an integer literal [z] (every literal of the script is
    below 2^53, so the conversion is exact). *)
Definition of_int (z : Z) : float64 := binary_normalize prec emax z 0 false.

(** A decimal literal [digits * 10^-frac], such as [19.6 = literal 196 1]:
    the binary64 number nearest to it.  Both operands are exact and [div]
    rounds to nearest even, which is how Python reads the literal. *)
Definition literal (digits frac : Z) : float64 :=
  div (of_int digits) (of_int (10 ^ frac)).

(** A finite number other than zero: neither [0.0], [inf] nor [nan]. *)
Definition finite_nonzero (x : float64) : bool :=
  match x with
  | S754_finite _ _ _ => true
  | _ => false
  end.

Definition one : float64 := S754_finite false 4503599627370496 (-52).

End Binary64.

Export Binary64.

(** The arithmetic the array code uses: the script runs it on binary64. *)
Class Arith (F : Type) : Type := {
  plus : F -> F -> F;
  times : F -> F -> F;
  divide : F -> F -> F;
  number : Z -> F
}.

#[export] Instance float64_arith : Arith float64 := {|
  plus := add;
  times := mul;
  divide := div;
  number := of_int
|}.

(** ** The NumPy array operations of the generator *)

Section Arrays.
Context {F : Type} `{Arith F}.

(** Running sum continued from [acc]. *)
Fixpoint cumsum_from (acc : F) (xs : list F) : list F :=
  match xs with
  | [] => []
  | x :: rest => let acc' := plus acc x in acc' :: cumsum_from acc' rest
  end.

(** [np.cumsum(xs)]: element [i] is [xs[0] + ... + xs[i]], added left to
    right. *)
Definition np_cumsum (xs : list F) : list F :=
  match xs with
  | [] => []
  | x :: rest => x :: cumsum_from x rest
  end.

(** [xs / d] with a scalar [d]. *)
Definition array_div (xs : list F) (d : F) : list F :=
  map (fun x => divide x d) xs.

(** [xs * k] with an integer literal [k]. *)
Definition array_mul (xs : list F) (k : Z) : list F :=
  map (fun x => times x (number k)) xs.

(** [xs / final * target], the right-hand side of lines 111, 114, 117 and
    120, with [final] the value read by [xs[-1]]. *)
Definition rescale (xs : list F) (final : F) (target : Z) : list F :=
  array_mul (array_div xs final) target.

(** [loc + scale * g] for every standard normal deviate [g]: what
    [np.random.normal(loc, scale, n)] returns for the deviates it drew. *)
Definition normal_of_gauss (loc scale : Z) (gs : list F) : list F :=
  map (fun g => plus (number loc) (times (number scale) g)) gs.

End Arrays.

(** ** Calendar dates and the business-day range *)

Module Calendar.

Record date : Type := Date { year : Z; month : Z; day : Z }.

Definition is_leap (y : Z) : bool :=
  (y mod 4 =? 0) && (negb (y mod 100 =? 0) || (y mod 400 =? 0)).

Definition days_in_month (y m : Z) : Z :=
  match m with
  | 2 => if is_leap y then 29 else 28
  | 4 | 6 | 9 | 11 => 30
  | _ => 31
  end.

Definition days_before_year (y : Z) : Z :=
  let p := y - 1 in p * 365 + p / 4 - p / 100 + p / 400.

Fixpoint days_before_month_aux (y : Z) (months : nat) : Z :=
  match months with
  | O => 0
  | S k => days_before_month_aux y k + days_in_month y (Z.of_nat (S k))
  end.

Definition days_before_month (y m : Z) : Z :=
  days_before_month_aux y (Z.to_nat (m - 1)).

(** Proleptic Gregorian ordinal, 0001-01-01 being day 1. *)
Definition toordinal (d : date) : Z :=
  days_before_year (year d) + days_before_month (year d) (month d) + day d.

(** Monday is 0 and Sunday is 6. *)
Definition weekday (d : date) : Z := (toordinal d + 6) mod 7.

Definition is_business_day (d : date) : bool := weekday d <? 5.

Definition next_day (d : date) : date :=
  if day d <? days_in_month (year d) (month d)
  then Date (year d) (month d) (day d + 1)
  else if month d <? 12
       then Date (year d) (month d + 1) 1
       else Date (year d + 1) 1 1.

(** A date of the calendar. *)
Definition valid_date (d : date) : Prop :=
  1 <= month d <= 12 /\ 1 <= day d <= days_in_month (year d) (month d).

Fixpoint days_from (d : date) (n : nat) : list date :=
  match n with
  | O => []
  | S k => d :: days_from (next_day d) k
  end.

(** [pd.date_range(start, stop, freq='B')]: the days from [start] to
    [stop], both included, that fall on Monday to Friday.  The call is
    modelled for calendar dates ([valid_date]), as the two of line 107
    are; pandas raises for a string that names no date. *)
Definition pd_date_range_B (start stop : date) : list date :=
  List.filter is_business_day
    (days_from start (Z.to_nat (toordinal stop - toordinal start + 1))).

End Calendar.

Export Calendar.

(** ** Values the script builds *)

(** A column of a DataFrame, or the data of one axis of a chart. *)
Inductive series : Type :=
| Dates (ds : list date)
| Floats (xs : list float64)
| Ints (zs : list Z)
| Strings (ss : list string).

Definition series_length (s : series) : nat :=
  match s with
  | Dates ds => length ds
  | Floats xs => length xs
  | Ints zs => length zs
  | Strings ss => length ss
  end.

(** A DataFrame: its named columns, in the order of the dict it was built
    from. *)
Definition DataFrame : Type := list (string * series).

Fixpoint column (df : DataFrame) (name : string) : option series :=
  match df with
  | [] => None
  | (k, s) :: rest => if String.eqb k name then Some s else column rest name
  end.

Definition same_length (cols : DataFrame) : bool :=
  match cols with
  | [] => true
  | (_, s) :: rest =>
      forallb (fun c => Nat.eqb (series_length (snd c)) (series_length s)) rest
  end.

(** Plotly traces and layout, with the properties the builders set. *)
Record line_style : Type := Line {
  line_color : string;
  line_width : Z;
  line_dash : option string
}.

Inductive plot_trace : Type :=
| Scatter (x y : series) (mode name : string) (line : line_style)
    (fill fillcolor : option string)
| Bar (x y : series) (marker_color : list string)
| Scatterpolar (r theta : series) (fill name line_color fillcolor : string).

Record layout : Type := Layout {
  title : option string;
  xaxis_title : option string;
  yaxis_title : option string;
  hovermode : option string;
  template : option string;
  height : option Z;
  radialaxis : option (bool * (Z * Z));
  showlegend : option bool
}.

Definition no_layout : layout :=
  Layout None None None None None None None None.

Definition keep {A : Type} (new old : option A) : option A :=
  match new with
  | Some _ => new
  | None => old
  end.

(** [update_layout] with keyword arguments [new]: the given properties
    replace the old ones. *)
Definition merge_layout (new old : layout) : layout :=
  Layout (keep (title new) (title old))
    (keep (xaxis_title new) (xaxis_title old))
    (keep (yaxis_title new) (yaxis_title old))
    (keep (hovermode new) (hovermode old))
    (keep (template new) (template old))
    (keep (height new) (height old))
    (keep (radialaxis new) (radialaxis old))
    (keep (showlegend new) (showlegend old)).

Record Figure : Type := Fig {
  fig_data : list plot_trace;
  fig_layout : layout
}.

(** A markup block passed to [st.markdown]: the horizontal rule [---], or
    a [div] given by its [class] attribute and the text it shows, line by
    line (inner tags and inline styles are left out). *)
Inductive markdown : Type :=
| Rule
| Div (class : string) (text : list string).

(** What a call into the Streamlit host displays. *)
Inductive element : Type :=
| Markdown (m : markdown)
| Header (s : string)
| Subheader (s : string)
| Written (s : string)
| Columns (n : nat)
| PlotlyChart (fig : Figure)
| Dataframe (df : DataFrame).

(** Where it is displayed: on the page, or in the column entered by a
    [with] block. *)
Inductive container : Type :=
| Page
| Column (i : nat).

Record host_call : Type := Shown {
  shown_in : container;
  shown : element
}.

(** ** The world: generator state, object store, host calls *)

Definition loc : Type := positive.

Inductive object : Type :=
| ODataFrame (df : DataFrame)
| OFigure (fig : Figure).

Inductive exn : Type :=
| KeyError (key : string)
| IndexError
| ValueError
| TypeError.

Inductive result (A : Type) : Type :=
| Ok (a : A)
| Raise (e : exn).

Arguments Ok {A} a.
Arguments Raise {A} e.

(** NumPy's legacy global generator, as far as the script uses it:
    [np.random.seed] installs the state of a seed, and each standard
    normal deviate is drawn from the state and advances it. *)
Class RNG (G : Type) : Type := {
  np_seed : Z -> G;
  legacy_gauss : G -> float64 * G
}.

Section Program.
Context {G : Type} `{RNG G}.

Record world : Type := World {
  rng : G;
  heap : gmap loc object;
  display : list host_call;
  calls : list (string * list loc);
  current : container
}.

Definition set_rng (s : G) (w : world) : world :=
  World s (heap w) (display w) (calls w) (current w).

Definition set_heap (h : gmap loc object) (w : world) : world :=
  World (rng w) h (display w) (calls w) (current w).

Definition set_current (c : container) (w : world) : world :=
  World (rng w) (heap w) (display w) (calls w) c.

Definition emit (e : element) (w : world) : world :=
  World (rng w) (heap w) (display w ++ [Shown (current w) e]) (calls w)
    (current w).

Definition log_call (fn : string) (args : list loc) (w : world) : world :=
  World (rng w) (heap w) (display w) (calls w ++ [(fn, args)]) (current w).

(** Computations: they read and change the world, and return or raise. *)
Definition M (A : Type) : Type := world -> result A * world.

#[export] Instance M_ret : MRet M := fun A a w => (Ok a, w).

#[export] Instance M_bind : MBind M := fun A B k c w =>
  match c w with
  | (Ok a, w') => k a w'
  | (Raise e, w') => (Raise e, w')
  end.

Definition raise {A : Type} (e : exn) : M A := fun w => (Raise e, w).

(** A call of a function of the script: the call is logged with the
    objects passed, then the body runs. *)
Definition called {A : Type} (fn : string) (args : list loc) (body : M A)
  : M A :=
  fun w => body (log_call fn args w).

(** Object creation: a new identity, not in use. *)
Definition alloc (o : object) : M loc := fun w =>
  let l := fresh (dom (heap w)) in (Ok l, set_heap (<[l := o]> (heap w)) w).

Fixpoint for_each {A : Type} (xs : list A) (body : A -> M unit) : M unit :=
  match xs with
  | [] => mret tt
  | x :: rest => body x;; for_each rest body
  end.

(** *** NumPy and pandas *)

Definition np_random_seed (seed : Z) : M unit := fun w =>
  (Ok tt, set_rng (np_seed seed) w).

Fixpoint draw_gauss (n : nat) (s : G) : list float64 * G :=
  match n with
  | O => ([], s)
  | S k =>
      let (g, s1) := legacy_gauss s in
      let (gs, s2) := draw_gauss k s1 in
      (g :: gs, s2)
  end.

(** [np.random.normal(loc, scale, n)] *)
Definition np_random_normal (mean scale : Z) (n : nat) : M (list float64) :=
  fun w =>
    let (gs, s') := draw_gauss n (rng w) in
    (Ok (normal_of_gauss mean scale gs), set_rng s' w).

(** [xs[-1]] *)
Definition item_last (xs : list float64) : M float64 :=
  match last xs with
  | Some x => mret x
  | None => raise IndexError
  end.

(** [pd.DataFrame(cols)]: columns of unequal length are refused. *)
Definition pd_DataFrame (cols : DataFrame) : M loc :=
  if same_length cols then alloc (ODataFrame cols) else raise ValueError.

(** [data[name]] *)
Definition getitem (data : loc) (name : string) : M series := fun w =>
  match heap w !! data with
  | Some (ODataFrame df) =>
      match column df name with
      | Some s => (Ok s, w)
      | None => (Raise (KeyError name), w)
      end
  | _ => (Raise TypeError, w)
  end.

(** *** Plotly *)

Definition go_Figure (data : list plot_trace) : M loc :=
  alloc (OFigure (Fig data no_layout)).

Definition with_figure (fig : loc) (f : Figure -> Figure) : M unit := fun w =>
  match heap w !! fig with
  | Some (OFigure g) => (Ok tt, set_heap (<[fig := OFigure (f g)]> (heap w)) w)
  | _ => (Raise TypeError, w)
  end.

Definition add_trace (fig : loc) (t : plot_trace) : M unit :=
  with_figure fig (fun g => Fig (fig_data g ++ [t]) (fig_layout g)).

Definition update_layout (fig : loc) (new : layout) : M unit :=
  with_figure fig (fun g => Fig (fig_data g) (merge_layout new (fig_layout g))).

(** *** Streamlit *)

Definition st_markdown (m : markdown) : M unit := fun w =>
  (Ok tt, emit (Markdown m) w).

Definition st_header (s : string) : M unit := fun w =>
  (Ok tt, emit (Header s) w).

Definition st_subheader (s : string) : M unit := fun w =>
  (Ok tt, emit (Subheader s) w).

Definition st_write (s : string) : M unit := fun w =>
  (Ok tt, emit (Written s) w).

Definition st_columns (n : nat) : M unit := fun w =>
  (Ok tt, emit (Columns n) w).

(** [with col:] for column [i] of the last [st.columns]. *)
Definition within (i : nat) (body : M unit) : M unit := fun w =>
  match body (set_current (Column i) w) with
  | (Ok tt, w') => (Ok tt, set_current (current w) w')
  | (Raise e, w') => (Raise e, w')
  end.

Definition st_plotly_chart (fig : loc) : M unit := fun w =>
  match heap w !! fig with
  | Some (OFigure g) => (Ok tt, emit (PlotlyChart g) w)
  | _ => (Raise TypeError, w)
  end.

Definition st_dataframe (data : loc) : M unit := fun w =>
  match heap w !! data with
  | Some (ODataFrame df) => (Ok tt, emit (Dataframe df) w)
  | _ => (Raise TypeError, w)
  end.


(** ** The script *)

(** Lines 104-128. *)
Definition generate_performance_data : M loc :=
  called "generate_performance_data" [] (
    np_random_seed 42;;
    let dates := take 48 (pd_date_range_B (Date 2025 9 1) (Date 2025 11 11)) in
    draws ← np_random_normal 2593 1500 48;
    let our_algorithm := np_cumsum draws in
    final ← item_last our_algorithm;
    let our_algorithm := rescale our_algorithm final 124477 in
    draws ← np_random_normal 390 600 48;
    let bank_nifty := np_cumsum draws in
    final ← item_last bank_nifty;
    let bank_nifty := rescale bank_nifty final 18750 in
    draws ← np_random_normal 260 400 48;
    let nifty_index := np_cumsum draws in
    final ← item_last nifty_index;
    let nifty_index := rescale nifty_index final 12500 in
    draws ← np_random_normal 173 250 48;
    let mutual_funds := np_cumsum draws in
    final ← item_last mutual_funds;
    let mutual_funds := rescale mutual_funds final 8333 in
    pd_DataFrame [
      ("Date", Dates dates);
      ("Our_Algorithm", Floats our_algorithm);
      ("Bank_Nifty", Floats bank_nifty);
      ("Nifty_Index", Floats nifty_index);
      ("Mutual_Funds", Floats mutual_funds)
    ]).

Definition dashed (color : string) : line_style :=
  Line color 2 (Some "dash").

(** Lines 130-173. *)
Definition create_performance_chart (data : loc) : M loc :=
  called "create_performance_chart" [data] (
    fig ← go_Figure [];
    x ← getitem data "Date";
    y ← getitem data "Our_Algorithm";
    add_trace fig
      (Scatter x y "lines+markers" "Our Algorithm" (Line "#38a169" 4 None)
         (Some "tonexty") (Some "rgba(56, 161, 105, 0.1)"));;
    x ← getitem data "Date";
    y ← getitem data "Bank_Nifty";
    add_trace fig
      (Scatter x y "lines" "Bank Nifty" (dashed "#ed8936") None None);;
    x ← getitem data "Date";
    y ← getitem data "Nifty_Index";
    add_trace fig
      (Scatter x y "lines" "Nifty Index" (dashed "#3182ce") None None);;
    x ← getitem data "Date";
    y ← getitem data "Mutual_Funds";
    add_trace fig
      (Scatter x y "lines" "Mutual Funds" (dashed "#9f7aea") None None);;
    update_layout fig
      (Layout (Some "Cumulative Performance Comparison (Sep - Nov 2025)")
         (Some "Date") (Some "Cumulative Returns (₹)") (Some "x unified")
         (Some "plotly_white") (Some 500) None None);;
    mret fig).

Definition strategies : list string :=
  ["Our Algorithm"; "Bank Nifty"; "Nifty Index"; "Mutual Funds"].

Definition drawdowns : list float64 :=
  [literal 196 1; literal 123 1; literal 85 1; literal 62 1].

Definition colors : list string :=
  ["#38a169"; "#ed8936"; "#3182ce"; "#9f7aea"].

(** Lines 175-193. *)
Definition create_drawdown_chart : M loc :=
  called "create_drawdown_chart" [] (
    fig ← go_Figure [Bar (Strings strategies) (Floats drawdowns) colors];
    update_layout fig
      (Layout (Some "Maximum Drawdown Comparison") (Some "Strategy")
         (Some "Drawdown (%)") None (Some "plotly_white") (Some 400) None
         None);;
    mret fig).

Definition categories : list string :=
  ["Consistency"; "Drawdown Control"; "Win Rate"; "Sharpe Ratio";
   "Adaptability"].

Definition values : list Z := [85; 90; 75; 85; 95].

(** Lines 195-223. *)
Definition create_risk_radar_chart : M loc :=
  called "create_risk_radar_chart" [] (
    fig ← go_Figure [];
    add_trace fig
      (Scatterpolar (Ints values) (Strings categories) "toself"
         "Our Algorithm" "#38a169" "rgba(56, 161, 105, 0.3)");;
    update_layout fig
      (Layout (Some "Risk Profile Assessment") None None None
         (Some "plotly_white") (Some 400) (Some (true, (0, 100)))
         (Some false));;
    mret fig).

(** *** What the generator draws and accumulates *)

(** The [n] deviates drawn from state [s], and the state they leave. *)
Definition deviates (n : nat) (s : G) : list float64 := fst (draw_gauss n s).

Definition after (n : nat) (s : G) : G := snd (draw_gauss n s).

(** The state in which series number [k] (from 0) starts to draw: the
    seed's state advanced by the 48 deviates of each series before it. *)
Definition state_before (k : nat) : G := after (48 * k) (np_seed 42).

(** The running sum of series [k] before it is rescaled (the first
    assignment of lines 110, 113, 116 and 119). *)
Definition walk (k : nat) (mean scale : Z) : list float64 :=
  np_cumsum (normal_of_gauss mean scale (deviates 48 (state_before k))).

(** The four running sums, in the order the script computes them. *)
Definition walks : list (list float64) :=
  [walk 0 2593 1500; walk 1 390 600; walk 2 260 400; walk 3 173 250].

(** A running sum rescaled by its own last element (the second assignment
    of lines 111, 114, 117 and 120). *)
Definition scaled (xs : list float64) (target : Z) : list float64 :=
  match last xs with
  | Some final => rescale xs final target
  | None => []
  end.

(** The columns the generator passes to [pd.DataFrame]. *)
Definition performance_frame : DataFrame := [
  ("Date", Dates (take 48 (pd_date_range_B (Date 2025 9 1) (Date 2025 11 11))));
  ("Our_Algorithm", Floats (scaled (walk 0 2593 1500) 124477));
  ("Bank_Nifty", Floats (scaled (walk 1 390 600) 18750));
  ("Nifty_Index", Floats (scaled (walk 2 260 400) 12500));
  ("Mutual_Funds", Floats (scaled (walk 3 173 250) 8333))
].

(** The final running sum of every series is a finite number other than
    zero: the divisions of lines 111, 114, 117 and 120 are by such a
    number. *)
Definition finite_finals : bool :=
  forallb (fun xs => from_option finite_nonzero false (last xs)) walks.

(** The DataFrame a run of the generator returns, if it returns one. *)
Definition frame_of (run : result loc * world) : option DataFrame :=
  match run with
  | (Ok data, w) =>
      match heap w !! data with
      | Some (ODataFrame df) => Some df
      | _ => None
      end
  | _ => None
  end.

(** The figure a run of a chart builder returns, if it returns one. *)
Definition figure_of (run : result loc * world) : option Figure :=
  match run with
  | (Ok fig, w) =>
      match heap w !! fig with
      | Some (OFigure g) => Some g
      | _ => None
      end
  | _ => None
  end.

(** The literals of [main]. *)
Definition comparison_data : DataFrame := [
  ("Metric",
   Strings ["Total Returns"; "Annualized Return"; "Daily Average";
            "Win Rate"; "Sharpe Ratio"]);
  ("Our Algorithm",
   Strings ["₹124,477"; "186.8%"; "₹2,593"; "62.5%"; "4.20"]);
  ("Best Traditional",
   Strings ["₹18,750"; "28.1%"; "₹390"; "52.0%"; "0.9"]);
  ("Outperformance",
   Strings ["+564%"; "+565%"; "+565%"; "+20%"; "+367%"])
].

Definition advantages : list string := [
  "Built-in Downside Protection: Options hedging limits maximum loss exposure during market downturns";
  "Volatility Advantage: Profits from increased volatility while protecting against adverse price movements";
  "Asymmetric Risk-Reward: Limited downside risk with unlimited upside potential through strategic options positioning";
  "Market Neutral Capability: Hedged positions reduce correlation with broader market movements";
  "Capital Preservation: Systematic protection mechanisms safeguard principal during volatile periods";
  "Time Decay Management: Strategic use of options time decay to enhance returns while maintaining protection"
].

Definition performance_targets : list string := [
  "🎯 PERFORMANCE TARGETS";
  "Annual Returns: 40-60%";
  "Win Rate: 60-65%";
  "Max Drawdown: &lt;25%";
  "Sharpe Ratio: &gt;3.0"
].

(** Lines 225-515. *)
Definition main : M unit :=
  st_markdown (Div "main-header" [
    "🛡️ ALGORITHMIC OPTIONS HEDGING STRATEGY";
    "Proprietary Quantitative Options Strategy with Advanced Risk Protection";
    "564%";
    "OUTPERFORMANCE vs Traditional Market Investments";
    "Proven algorithmic strategy with systematic risk management"]);;
  (* Key Metrics *)
  st_columns 4;;
  within 1 (st_markdown
    (Div "metric-card" ["₹124,477"; "Total Returns"; "2.5 Months"]));;
  within 2 (st_markdown
    (Div "metric-card" ["62.5%"; "Win Rate"; "Controlled Risk"]));;
  within 3 (st_markdown
    (Div "metric-card" ["186.8%"; "Annualized Return"; "Risk-Adjusted"]));;
  within 4 (st_markdown
    (Div "metric-card" ["4.20"; "Sharpe Ratio"; "Exceptional"]));;
  st_markdown Rule;;
  (* Performance Overview *)
  st_header "📊 PERFORMANCE OVERVIEW";;
  st_subheader "Systematic outperformance across all metrics";;
  performance_data ← generate_performance_data;
  performance_fig ← create_performance_chart performance_data;
  st_plotly_chart performance_fig;;
  (* Comparison Table *)
  st_subheader "Performance Comparison";;
  df ← pd_DataFrame comparison_data;
  st_dataframe df;;
  st_markdown Rule;;
  (* Strategy Methodology *)
  st_header "🧠 STRATEGY METHODOLOGY";;
  st_subheader "Proprietary Algorithmic Framework";;
  st_columns 2;;
  within 1 (
    st_markdown (Div "feature-card" [
      "🧠 Advanced Pattern Recognition";
      "Machine learning algorithms analyze historical market patterns and identify optimal options trading opportunities with precision timing."]);;
    st_markdown (Div "feature-card" [
      "🛡️ Options Hedging Protection";
      "Strategic options positions create natural hedges against market volatility, protecting capital during adverse movements while capturing upside potential."]));;
  within 2 (
    st_markdown (Div "feature-card" [
      "⚙️ Systematic Execution";
      "Fully automated options strategy eliminates emotional bias and ensures consistent implementation of complex hedged positions."]);;
    st_markdown (Div "feature-card" [
      "📊 Multi-Index Options Selection";
      "Intelligent selection across Nifty and Sensex options with correlation-based hedging for enhanced risk-adjusted returns."]));;
  (* Hedging Advantages *)
  st_subheader "🛡️ HEDGING STRATEGY ADVANTAGES";;
  for_each advantages (fun advantage => st_write ("✅ " ++ advantage)%string);;
  st_markdown Rule;;
  (* Risk Analysis *)
  st_header "🛡️ OPTIONS HEDGING & RISK CONTROLS";;
  st_subheader "Multi-layered protection through strategic hedging";;
  st_columns 2;;
  within 1 (
    drawdown_fig ← create_drawdown_chart;
    st_plotly_chart drawdown_fig);;
  within 2 (
    radar_fig ← create_risk_radar_chart;
    st_plotly_chart radar_fig);;
  (* Risk Controls *)
  st_subheader "Risk Control Framework";;
  st_columns 3;;
  within 1 (
    st_markdown (Div "feature-card" [
      "Options Hedging Protection";
      "Strategic options positions provide natural insurance against adverse market movements"]);;
    st_markdown (Div "feature-card" [
      "Volatility Shield";
      "Hedged positions benefit from volatility spikes while limiting downside exposure"]));;
  within 2 (
    st_markdown (Div "feature-card" [
      "Dynamic Delta Management";
      "Real-time adjustment of position delta to maintain optimal risk-reward profile"]);;
    st_markdown (Div "feature-card" [
      "Time Decay Optimization";
      "Strategic use of options theta decay to generate income while maintaining protection"]));;
  within 3 (
    st_markdown (Div "feature-card" [
      "Correlation Hedging";
      "Multi-index options selection reduces single-market dependency through diversification"]);;
    st_markdown (Div "feature-card" [
      "Tail Risk Protection";
      "Options structure provides asymmetric payoff protecting against extreme market events"]));;
  st_markdown Rule;;
  (* Investment Opportunity *)
  st_header "💼 INVESTMENT OPPORTUNITY";;
  st_subheader "Exclusive access to algorithmic excellence";;
  st_markdown (Div "highlight-box" [
    "KEY INVESTMENT HIGHLIGHTS";
    "✓ PROVEN PERFORMANCE: 564% outperformance vs benchmarks with hedging protection";
    "✓ DOWNSIDE PROTECTION: Options hedging limits losses during market downturns";
    "✓ VOLATILITY ADVANTAGE: Strategy profits from market uncertainty while maintaining capital safety";
    "✓ SYSTEMATIC HEDGING: Automated risk management eliminates human emotion and bias";
    "✓ ASYMMETRIC RETURNS: Limited downside risk with unlimited upside potential";
    "✓ MULTI-LAYER PROTECTION: Options structure provides comprehensive risk management"]);;
  (* Investment Terms *)
  st_columns 2;;
  within 1 (
    st_markdown (Div "feature-card" performance_targets);;
    st_markdown (Div "feature-card" [
      "💼 INVESTMENT TERMS";
      "Minimum Investment: As per discussion";
      "Management Fee: Competitive rates";
      "Performance Fee: Success aligned";
      "Scalable structure"]));;
  within 2 (
    st_markdown (Div "feature-card" [
      "📊 OPERATIONAL EXCELLENCE";
      "Daily monitoring & execution";
      "Real-time risk management";
      "Monthly performance reporting";
      "Quarterly optimization reviews"]);;
    st_markdown (Div "feature-card" [
      "🚀 COMPETITIVE EDGE";
      "Proprietary & proven algorithm";
      "Fully systematic execution";
      "Various allocation sizes";
      "Continuous optimization"]));;
  (* Footer *)
  st_markdown (Div "confidential-footer" [
    "🔒 CONFIDENTIAL - FOR QUALIFIED INVESTORS ONLY";
    "This presentation contains confidential and proprietary information"]).

End Program.

(** ** Reading the figures the page displays *)

Definition is_digit (c : ascii) : bool :=
  (48 <=? nat_of_ascii c)%nat && (nat_of_ascii c <=? 57)%nat.

Definition digit_value (c : ascii) : Z := Z.of_nat (nat_of_ascii c) - 48.

(** The digits of a displayed figure, scanned left to right: [m] is the
    number read so far, [places] the number of digits after the decimal
    point.  Anything else (currency sign, thousands separator, sign,
    percent sign, words) is skipped. *)
Fixpoint scan_figure (s : string) (m : Z) (point : bool) (places : nat)
  : Z * nat :=
  match s with
  | EmptyString => (m, places)
  | String c rest =>
      if is_digit c
      then scan_figure rest (10 * m + digit_value c) point
             (if point then S places else places)
      else if Ascii.eqb c "."%char
           then scan_figure rest m true places
           else scan_figure rest m point places
  end.

(** The value displayed: ["₹124,477"] is 124477, ["186.8%"] is 186.8,
    ["+564%"] is 564. *)
Definition figure (s : string) : Q :=
  let (m, places) := scan_figure s 0 false 0 in
  Qmake m (Pos.of_nat (10 ^ places)).

Definition strings_of (df : DataFrame) (name : string) : list string :=
  match column df name with
  | Some (Strings ss) => ss
  | _ => []
  end.

Definition floats_of (df : DataFrame) (name : string) : list float64 :=
  match column df name with
  | Some (Floats xs) => xs
  | _ => []
  end.

(** The rows of the comparison table: strategy, best alternative and the
    outperformance quoted, as displayed. *)
Definition comparison_rows : list (string * (string * string)) :=
  zip (strings_of comparison_data "Our Algorithm")
    (zip (strings_of comparison_data "Best Traditional")
       (strings_of comparison_data "Outperformance")).

(** Relative outperformance of [ours] over [best], in percent. *)
Definition outperformance (ours best : Q) : Q :=
  (100 * ((ours - best) / best))%Q.

(** [p] is [x] rounded to a whole number: no integer is nearer. *)
Definition rounds_to (x p : Q) : Prop :=
  (Qabs (x - p) <= 1 # 2)%Q /\ (Qden (Qred p) = 1%positive).

(** ** Reading a DataFrame and a page *)

(** The output shape of the generator: a [Date] column of 48 dates and
    the four numeric columns, 48 rows each. *)
Definition dates_column (df : DataFrame) (name : string) : bool :=
  match column df name with
  | Some (Dates ds) => Nat.eqb (length ds) 48
  | _ => false
  end.

Definition floats_column (df : DataFrame) (name : string) : bool :=
  match column df name with
  | Some (Floats xs) => Nat.eqb (length xs) 48
  | _ => false
  end.

Definition generator_shape (df : DataFrame) : bool :=
  dates_column df "Date" && floats_column df "Our_Algorithm"
  && floats_column df "Bank_Nifty" && floats_column df "Nifty_Index"
  && floats_column df "Mutual_Funds".

(** The blocks of the page that are counted. *)
Inductive block : Type :=
| KPI
| ChartEmbed (chart_title : option string)
| ComparisonTable
| Footer.

Definition block_of (c : host_call) : option block :=
  match shown c with
  | Markdown (Div class _) =>
      if String.eqb class "metric-card" then Some KPI
      else if String.eqb class "confidential-footer" then Some Footer
      else None
  | PlotlyChart fig => Some (ChartEmbed (title (fig_layout fig)))
  | Dataframe _ => Some ComparisonTable
  | _ => None
  end.

(** The data a scatter trace shows. *)
Definition scatter_data (t : plot_trace) : option (series * series) :=
  match t with
  | Scatter x y _ _ _ _ _ => Some (x, y)
  | _ => None
  end.

(** Column [name] of a frame against its [Date] column. *)
Definition against_date (df : DataFrame) (name : string)
  : option (series * series) :=
  match column df "Date", column df name with
  | Some x, Some y => Some (x, y)
  | _, _ => None
  end.

(** The figures embedded in a page, in order. *)
Definition embedded (page : list host_call) : list Figure :=
  omap (fun c => match shown c with PlotlyChart g => Some g | _ => None end)
    page.

(** The calls that were passed object [l]. *)
Definition consumers (l : loc) (log : list (string * list loc))
  : list (string * list loc) :=
  List.filter (fun c => existsb (Pos.eqb l) (snd c)) log.

(** The effect of a chart builder called in [w]: one call logged, one
    figure created under a new identity, nothing else changed. *)
Definition builds {G : Type} (run : result loc * @world G) (w : @world G)
  (fn : string) (args : list loc) (g : Figure) : Prop :=
  run
  = (Ok (fresh (dom (heap w))),
     World (rng w) (<[fresh (dom (heap w)) := OFigure g]> (heap w))
       (display w) (calls w ++ [(fn, args)]) (current w)).

(** ** A small generator to run the model on

    A linear congruential state; each deviate is a small integer around
    zero.  It stands for no distribution: it only lets the model run. *)
#[export] Instance lcg_rng : RNG Z := {|
  np_seed := fun seed => seed;
  legacy_gauss := fun s =>
    let s' := (1103515245 * s + 12345) mod 2147483648 in
    (of_int (s' / 65536 mod 7 - 3), s')
|}.

Definition empty_world : world (G := Z) := World 0 ∅ [] [] Page.

(** ** Further readings of the script's values *)

(** The columns the performance chart builder reads, in the order in
    which it first reads them (lines 135, 144, 151 and 158). *)
Definition chart_columns : list string :=
  ["Date"; "Our_Algorithm"; "Bank_Nifty"; "Nifty_Index"; "Mutual_Funds"].

Definition has_column (df : DataFrame) (name : string) : bool :=
  match column df name with
  | Some _ => true
  | None => false
  end.

(** The first column the builder reads that the frame does not have. *)
Definition first_missing (df : DataFrame) : option string :=
  List.find (fun name => negb (has_column df name)) chart_columns.

(** The legend of a chart: name and colour of each line or bar. *)
Definition legend (t : plot_trace) : list (string * string) :=
  match t with
  | Scatter _ _ _ name line _ _ => [(name, line_color line)]
  | Bar (Strings names) _ marker_color => zip names marker_color
  | Scatterpolar _ _ _ name line_color _ => [(name, line_color)]
  | _ => []
  end.

(** The points of a trace: how many on each axis. *)
Definition points (t : plot_trace) : nat * nat :=
  match t with
  | Scatter x y _ _ _ _ _ => (series_length x, series_length y)
  | Bar x y _ => (series_length x, series_length y)
  | Scatterpolar r theta _ _ _ _ => (series_length r, series_length theta)
  end.

(** The text of the metric cards of a page: figure, label, remark. *)
Definition cards (page : list host_call) : list (list string) :=
  omap (fun c =>
          match shown c with
          | Markdown (Div class text) =>
              if String.eqb class "metric-card" then Some text else None
          | _ => None
          end) page.

(** The columns opened on a page and the columns written to: for each
    [st.columns(n)], the number [n]; for each element shown inside a
    [with] block, the index of its column. *)
Inductive column_use : Type :=
| Opened (n : nat)
| Filled (i : nat).

Definition column_uses (page : list host_call) : list column_use :=
  omap (fun c =>
          match shown c, shown_in c with
          | Columns n, _ => Some (Opened n)
          | _, Column i => Some (Filled i)
          | _, Page => None
          end) page.

(** Every column written to is one of the [n] columns last opened. *)
Fixpoint columns_in_range (opened : nat) (uses : list column_use) : bool :=
  match uses with
  | [] => true
  | Opened n :: rest => columns_in_range n rest
  | Filled i :: rest =>
      Nat.leb 1 i && Nat.leb i opened && columns_in_range opened rest
  end.

(** Every column opened is written to before the next ones are opened:
    [filled] are the columns written to since the last [st.columns(n)]. *)
Fixpoint columns_filled (opened : nat) (filled : list nat)
  (uses : list column_use) : bool :=
  let complete :=
    forallb (fun i => existsb (Nat.eqb i) filled) (seq 1 opened) in
  match uses with
  | [] => complete
  | Opened n :: rest => complete && columns_filled n [] rest
  | Filled i :: rest => columns_filled opened (i :: filled) rest
  end.

Definition columns_all_filled (uses : list column_use) : bool :=
  columns_filled 0 [] uses.

(** ** A generator whose first series sums to zero

    Two deviates in turn, 1 and -6686/1500: the increments of the first
    series are 4093 and -4093, and its running sum ends on 0.0. *)
Definition zero_sum_rng : RNG bool := {|
  np_seed := fun _ => false;
  legacy_gauss := fun s =>
    (if s then div (of_int (-6686)) (of_int 1500) else of_int 1, negb s)
|}.

Definition zero_sum_world : world (G := bool) := World false ∅ [] [] Page.

(** The store after an object is created in it. *)
Definition store_new (o : object) (h : gmap loc object) : gmap loc object :=
  <[fresh (dom h) := o]> h.

(** The cell of a table of strings: the entry of column [value_column]
    in the row whose entry in column [key_column] is [key]. *)
Definition cell (df : DataFrame) (key_column key value_column : string)
  : option string :=
  snd <$> List.find (fun row => String.eqb (fst row) key)
            (zip (strings_of df key_column) (strings_of df value_column)).

(** The whole part of a figure displayed. *)
Definition whole (q : Q) : Z := Qnum q / Z.pos (Qden q).

(** A frame that lacks two of the columns of the performance chart. *)
Definition incomplete_frame : DataFrame := [
  ("Date", Dates [Date 2025 9 1]);
  ("Our_Algorithm", Floats [of_int 124477]);
  ("Bank_Nifty", Floats [of_int 18750])
].

(** The frame of the small generator with one more column, the columns
    in another order. *)
Definition extended_frame : DataFrame :=
  ("Volume", Ints (List.repeat 0 48)) :: rev (performance_frame (G := Z)).

(** A world that holds these frames as objects 1, 2 and 3. *)
Definition three_frames : world (G := Z) :=
  World 0
    (store_new (ODataFrame extended_frame)
       (store_new (ODataFrame incomplete_frame)
          (store_new (ODataFrame (performance_frame (G := Z))) ∅)))
    [] [] Page.

(** * Properties *)

(** ** Binary64: a finite number divided by itself, times a target *)

Section Binary64Facts.

Lemma div_eucl_multiple (m : positive) (k : Z) :
  Z.div_eucl (Z.pos m * k) (Z.pos m) = (k, 0).
Proof.
  pose proof (Z.div_mul k (Z.pos m)) as Hq.
  pose proof (Z.mod_mul k (Z.pos m)) as Hr.
  unfold Z.div, Z.modulo in Hq, Hr.
  rewrite (Z.mul_comm (Z.pos m)).
  destruct (Z.div_eucl (k * Z.pos m) (Z.pos m)) as [q r].
  rewrite Hq, Hr by lia. reflexivity.
Qed.

(** The quotient digits of [m * 2^e / (m * 2^e)]: exactly [2^53] at
    exponent [-53], nothing left to round. *)
Lemma div_core_self (m : positive) (e : Z) :
  SFdiv_core_binary prec emax (Z.pos m) e (Z.pos m) e
  = (2 ^ 53, -53, loc_Exact).
Proof.
  unfold SFdiv_core_binary.
  replace (Zdigits2 (Z.pos m) + e - (Zdigits2 (Z.pos m) + e)) with 0 by lia.
  replace (e - e) with 0 by lia.
  change (Z.min (fexp prec emax 0) 0) with (-53).
  change (0 - -53) with 53.
  cbv iota beta zeta.
  rewrite Z.shiftl_mul_pow2 by lia.
  rewrite div_eucl_multiple.
  unfold new_location. destruct (Z.even (Z.pos m)); reflexivity.
Qed.

Lemma div_self (x : float64) : finite_nonzero x = true -> div x x = one.
Proof.
  destruct x as [s | s | | s m e]; try discriminate. intros _.
  unfold div, SFdiv. rewrite div_core_self.
  destruct s; reflexivity.
Qed.

(** [1.0 * target] is the target, for the four targets of the script. *)
Lemma mul_one_target (t : Z) :
  In t [124477; 18750; 12500; 8333] -> mul one (of_int t) = of_int t.
Proof.
  intros Ht. repeat (destruct Ht as [<- | Ht]; [vm_compute; reflexivity |]).
  destruct Ht.
Qed.

(** Without a finite nonzero divisor the quotient is not a number the
    target survives: [0/0], [inf/inf] and [nan/nan] are [nan]. *)
Lemma div_self_nan (x : float64) :
  finite_nonzero x = false -> div x x = S754_nan.
Proof. destruct x as [s | s | | s m e]; try discriminate; reflexivity. Qed.

End Binary64Facts.

(** ** Arrays: lengths and last elements *)

Section ArrayFacts.
Context {F : Type} `{Arith F}.

Lemma length_cumsum_from (acc : F) (xs : list F) :
  length (cumsum_from acc xs) = length xs.
Proof.
  revert acc. induction xs as [| x rest IH]; intros acc; simpl.
  - reflexivity.
  - now rewrite IH.
Qed.

Lemma length_np_cumsum (xs : list F) : length (np_cumsum xs) = length xs.
Proof.
  destruct xs as [| x rest]; simpl; [reflexivity |].
  now rewrite length_cumsum_from.
Qed.

Lemma length_rescale (xs : list F) (final : F) (target : Z) :
  length (rescale xs final target) = length xs.
Proof. unfold rescale, array_mul, array_div. now rewrite !length_map. Qed.

Lemma length_normal_of_gauss (mean scale : Z) (gs : list F) :
  length (normal_of_gauss mean scale gs) = length gs.
Proof. unfold normal_of_gauss. now rewrite length_map. Qed.

Lemma last_map {A B : Type} (f : A -> B) (xs : list A) :
  last (map f xs) = option_map f (last xs).
Proof.
  induction xs as [| x [| y rest] IH]; [reflexivity | reflexivity |].
  exact IH.
Qed.

(** Every element goes through the same two operations: divided by
    [final], then multiplied by the target. *)
Lemma rescale_map (xs : list F) (final : F) (target : Z) :
  rescale xs final target
  = map (fun x => times (divide x final) (number target)) xs.
Proof. unfold rescale, array_mul, array_div. now rewrite map_map. Qed.

Lemma last_rescale (xs : list F) (final : F) (target : Z) :
  last (rescale xs final target)
  = option_map (fun x => times (divide x final) (number target)) (last xs).
Proof. rewrite rescale_map. apply last_map. Qed.

Lemma last_is_Some {A : Type} (xs : list A) :
  (0 < length xs)%nat -> exists x, last xs = Some x.
Proof.
  induction xs as [| x [| y rest] IH]; simpl; intros Hlen.
  - lia.
  - now exists x.
  - apply IH. simpl. lia.
Qed.

End ArrayFacts.

(** In binary64 the script rounds twice, after the division and after the
    multiplication, so the result can differ in the last place from the
    single product by [target / final]: 1/3 * 124477 is not 124477/3. *)
Remark rescale_rounds_twice :
  rescale [of_int 1] (of_int 3) 124477
  <> [mul (of_int 1) (div (of_int 124477) (of_int 3))].
Proof. vm_compute. discriminate. Qed.

(** ** The calendar of the date index *)

Section CalendarFacts.

Lemma days_before_next_year (y : Z) :
  days_before_year (y + 1)
  = days_before_year y + (if is_leap y then 366 else 365).
Proof.
  unfold days_before_year, is_leap. cbv zeta.
  replace (y + 1 - 1) with y by lia.
  destruct (Z.eqb_spec (y mod 4) 0), (Z.eqb_spec (y mod 100) 0),
    (Z.eqb_spec (y mod 400) 0); cbn [negb andb orb];
    Z.div_mod_to_equations; lia.
Qed.

(** [next_day] is the successor on ordinals: through months, leap years
    and the end of the year. *)
Lemma next_day_ordinal (d : date) :
  valid_date d -> toordinal (next_day d) = toordinal d + 1.
Proof.
  destruct d as [y m dy]. unfold valid_date, next_day, toordinal.
  cbn [year month day]. intros [Hm Hd].
  destruct (Z.ltb_spec dy (days_in_month y m)) as [Hlt | Hge];
    cbn [year month day]; [lia |].
  assert (Hlast : dy = days_in_month y m) by lia. clear Hge Hd.
  destruct (Z.ltb_spec m 12) as [Hm12 | Hm12]; cbn [year month day].
  - assert (Hcases : m = 1 \/ m = 2 \/ m = 3 \/ m = 4 \/ m = 5 \/ m = 6 \/
                     m = 7 \/ m = 8 \/ m = 9 \/ m = 10 \/ m = 11) by lia.
    subst dy. unfold days_before_month.
    repeat (destruct Hcases as [-> | Hcases];
            [simpl; destruct (is_leap y); lia |]).
    subst m. simpl. destruct (is_leap y); lia.
  - assert (m = 12) by lia. subst m dy.
    rewrite days_before_next_year. unfold days_before_month.
    simpl. destruct (is_leap y); lia.
Qed.

(** So the day of the week moves on by one, Sunday back to Monday. *)
Lemma next_day_weekday (d : date) :
  valid_date d -> weekday (next_day d) = (weekday d + 1) mod 7.
Proof.
  intros Hd. unfold weekday. rewrite (next_day_ordinal d Hd).
  rewrite Zplus_mod_idemp_l. f_equal. lia.
Qed.



Lemma length_dates :
  length (take 48 (pd_date_range_B (Date 2025 9 1) (Date 2025 11 11))) = 48%nat.
Proof. vm_compute. reflexivity. Qed.

End CalendarFacts.

(** ** Running the generator *)

Section GeneratorFacts.
Context {G : Type} `{RNG G}.

Lemma draw_gauss_pair (n : nat) (s : G) :
  draw_gauss n s = (deviates n s, after n s).
Proof. unfold deviates, after. now destruct (draw_gauss n s). Qed.

Lemma length_deviates (n : nat) (s : G) : length (deviates n s) = n.
Proof.
  unfold deviates. revert s.
  induction n as [| n IH]; intros s; simpl; [reflexivity |].
  destruct (legacy_gauss s) as [g s1]. specialize (IH s1).
  destruct (draw_gauss n s1) as [gs s2]. simpl in *. now rewrite IH.
Qed.

(** Drawing [n + m] deviates is drawing [n], then [m] from where the
    [n] left the state. *)
Lemma draw_gauss_add (n m : nat) (s : G) :
  draw_gauss (n + m) s
  = (deviates n s ++ deviates m (after n s), after m (after n s)).
Proof.
  unfold deviates, after. revert s.
  induction n as [| n IH]; intros s; simpl.
  - now destruct (draw_gauss m s).
  - destruct (legacy_gauss s) as [g s1]. rewrite (IH s1).
    destruct (draw_gauss n s1) as [gs s2]. reflexivity.
Qed.

Lemma after_add (n m : nat) (s : G) : after (n + m) s = after m (after n s).
Proof. unfold after at 1. now rewrite draw_gauss_add. Qed.

Lemma deviates_add (n m : nat) (s : G) :
  deviates (n + m) s = deviates n s ++ deviates m (after n s).
Proof. unfold deviates at 1. now rewrite draw_gauss_add. Qed.

Lemma state_before_0 : state_before 0 = np_seed 42.
Proof. reflexivity. Qed.

Lemma state_before_S (k : nat) :
  state_before (S k) = after 48 (state_before k).
Proof.
  unfold state_before. rewrite Nat.mul_succ_r. apply after_add.
Qed.

Lemma length_walk (k : nat) (mean scale : Z) :
  length (walk k mean scale) = 48%nat.
Proof.
  unfold walk.
  now rewrite length_np_cumsum, length_normal_of_gauss, length_deviates.
Qed.

Lemma walk_last (k : nat) (mean scale : Z) :
  exists final, last (walk k mean scale) = Some final.
Proof. apply last_is_Some. rewrite length_walk. lia. Qed.

Lemma length_scaled (k : nat) (mean scale target : Z) :
  length (scaled (walk k mean scale) target) = 48%nat.
Proof.
  unfold scaled. destruct (walk_last k mean scale) as [final ->].
  rewrite length_rescale. apply length_walk.
Qed.

(** *** One step of a computation *)

Lemma bind_run {A B : Type} (c : M (G := G) A) (k : A -> M B)
  (w w' : @world G) (a : A) :
  c w = (Ok a, w') -> (c ≫= k) w = k a w'.
Proof. intros Hc. unfold mbind, M_bind. now rewrite Hc. Qed.

Lemma bind_raise {A B : Type} (c : M (G := G) A) (k : A -> M B)
  (w w' : @world G) (e : exn) :
  c w = (Raise e, w') -> (c ≫= k) w = (Raise e, w').
Proof. intros Hc. unfold mbind, M_bind. now rewrite Hc. Qed.

Lemma np_random_seed_run (seed : Z) (w : @world G) :
  np_random_seed seed w = (Ok tt, set_rng (np_seed seed) w).
Proof. reflexivity. Qed.

Lemma np_random_normal_run (mean scale : Z) (n : nat) (w : @world G) :
  np_random_normal mean scale n w
  = (Ok (normal_of_gauss mean scale (deviates n (rng w))),
     set_rng (after n (rng w)) w).
Proof. unfold np_random_normal. now rewrite draw_gauss_pair. Qed.

Lemma item_last_run (xs : list float64) (x : float64) (w : @world G) :
  last xs = Some x -> item_last xs w = (Ok x, w).
Proof. intros Hx. unfold item_last. now rewrite Hx. Qed.

(** One series of the generator: 48 draws, the running sum and its last
    element; then the rest of the function, [rest]. *)
Lemma series_run {A : Type} (k : nat) (mean scale : Z)
  (rest : list float64 -> float64 -> M A) (w : @world G) :
  rng w = state_before k ->
  exists final,
    last (walk k mean scale) = Some final /\
    (draws ← np_random_normal mean scale 48;
     final ← item_last (np_cumsum draws);
     rest draws final) w
    = rest (normal_of_gauss mean scale (deviates 48 (state_before k))) final
        (set_rng (state_before (S k)) w).
Proof.
  intros Hrng.
  destruct (walk_last k mean scale) as [final Hfinal].
  exists final. split; [exact Hfinal |].
  rewrite (bind_run _ _ _ _ _ (np_random_normal_run mean scale 48 w)).
  rewrite Hrng, <- state_before_S.
  now rewrite (bind_run _ _ _ _ _ (item_last_run _ _ _ Hfinal)).
Qed.

Lemma scaled_walk (k : nat) (mean scale target : Z) (final : float64) :
  last (walk k mean scale) = Some final ->
  rescale (np_cumsum (normal_of_gauss mean scale (deviates 48 (state_before k))))
    final target
  = scaled (walk k mean scale) target.
Proof. intros Hfinal. unfold scaled. now rewrite Hfinal. Qed.

Lemma same_length_performance_frame : same_length performance_frame = true.
Proof.
  unfold performance_frame, same_length. cbn [forallb snd series_length].
  rewrite !length_scaled, length_dates. reflexivity.
Qed.

(** The generator returns, whatever the world it is called in: it leaves
    the generator state after 192 deviates, stores its frame under a new
    identity and displays nothing. *)
Ltac run_series k :=
  match goal with
  | |- (np_random_normal ?mean ?scale 48
        ≫= (fun draws => item_last (np_cumsum draws)
                          ≫= (fun final => @?rest draws final))) ?w = _ =>
      let f := fresh "final" in
      let Hf := fresh "Hfinal" in
      let Hrun := fresh "Hrun" in
      destruct (series_run k mean scale rest w) as (f & Hf & Hrun);
      [reflexivity |];
      cbv beta in Hrun; rewrite Hrun; clear Hrun;
      rewrite (scaled_walk k _ _ _ _ Hf)
  end.

Lemma generate_run (w : @world G) :
  generate_performance_data w
  = (Ok (fresh (dom (heap w))),
     World (state_before 4)
       (<[fresh (dom (heap w)) := ODataFrame performance_frame]> (heap w))
       (display w) (calls w ++ [("generate_performance_data", [])])
       (current w)).
Proof.
  unfold generate_performance_data, called.
  rewrite (bind_run _ _ _ _ _ (np_random_seed_run 42 _)).
  cbv zeta.
  run_series 0%nat. run_series 1%nat. run_series 2%nat. run_series 3%nat.
  fold performance_frame. unfold pd_DataFrame.
  rewrite same_length_performance_frame.
  reflexivity.
Qed.

End GeneratorFacts.

(** ** Running the chart builders *)

Section BuilderFacts.
Context {G : Type} `{RNG G}.

Lemma fresh_unused (h : gmap loc object) : h !! fresh (dom h) = None.
Proof. apply not_elem_of_dom. apply is_fresh. Qed.

Lemma fresh_other (h : gmap loc object) (l : loc) (o : object) :
  h !! l = Some o -> fresh (dom h) <> l.
Proof. intros Hl Heq. rewrite <- Heq, fresh_unused in Hl. discriminate. Qed.

(** An object in the store is still there, unchanged, after another one
    is created. *)
Lemma lookup_after_alloc (h : gmap loc object) (l : loc) (o o' : object) :
  h !! l = Some o -> <[fresh (dom h) := o']> h !! l = Some o.
Proof.
  intros Hl. rewrite lookup_insert_ne; [exact Hl |].
  now apply fresh_other with o.
Qed.

Lemma alloc_run (o : object) (w : @world G) :
  alloc o w
  = (Ok (fresh (dom (heap w))),
     set_heap (<[fresh (dom (heap w)) := o]> (heap w)) w).
Proof. reflexivity. Qed.

Lemma getitem_run (data : loc) (name : string) (df : DataFrame) (s : series)
  (w : @world G) :
  heap w !! data = Some (ODataFrame df) -> column df name = Some s ->
  getitem data name w = (Ok s, w).
Proof. intros Hdata Hcol. unfold getitem. now rewrite Hdata, Hcol. Qed.

Lemma getitem_world (data : loc) (name : string) (w : @world G) :
  snd (getitem data name w) = w.
Proof.
  unfold getitem.
  destruct (heap w !! data) as [[df | g] |]; [| reflexivity | reflexivity].
  now destruct (column df name).
Qed.

Lemma with_figure_run (fig : loc) (f : Figure -> Figure) (g : Figure)
  (w : @world G) :
  heap w !! fig = Some (OFigure g) ->
  with_figure fig f w
  = (Ok tt, set_heap (<[fig := OFigure (f g)]> (heap w)) w).
Proof. intros Hfig. unfold with_figure. now rewrite Hfig. Qed.

Ltac read_column df :=
  erewrite bind_run;
  [| apply getitem_run with (df := df);
     [cbn [heap set_heap]; rewrite lookup_insert_ne by assumption;
      eassumption
     | eassumption]].

Ltac change_figure :=
  erewrite bind_run;
  [| apply with_figure_run; cbn [heap set_heap]; apply lookup_insert_eq];
  cbn [heap set_heap rng display calls current];
  rewrite insert_insert_eq.

Lemma create_performance_chart_run (x y1 y2 y3 y4 : series) :
  exists g,
    (forall (data : loc) (df : DataFrame) (w : @world G),
        heap w !! data = Some (ODataFrame df) ->
        column df "Date" = Some x ->
        column df "Our_Algorithm" = Some y1 ->
        column df "Bank_Nifty" = Some y2 ->
        column df "Nifty_Index" = Some y3 ->
        column df "Mutual_Funds" = Some y4 ->
        builds (create_performance_chart data w) w "create_performance_chart"
          [data] g) /\
    map scatter_data (fig_data g)
    = [Some (x, y1); Some (x, y2); Some (x, y3); Some (x, y4)] /\
    title (fig_layout g)
    = Some "Cumulative Performance Comparison (Sep - Nov 2025)".
Proof.
  eexists. split; [| split].
  - intros data df w Hdata Hx Hy1 Hy2 Hy3 Hy4.
    pose proof (fresh_other _ _ _ Hdata) as Hne.
    destruct w as [r h d cs cur]. cbn [heap] in Hdata, Hne.
    unfold builds, create_performance_chart, called, log_call, go_Figure,
      add_trace, update_layout.
    cbn [heap rng display calls current].
    rewrite (bind_run _ _ _ _ _ (alloc_run _ _)).
    cbn [heap set_heap rng display calls current].
    read_column df. read_column df. change_figure.
    read_column df. read_column df. change_figure.
    read_column df. read_column df. change_figure.
    read_column df. read_column df. change_figure.
    change_figure.
    reflexivity.
  - reflexivity.
  - reflexivity.
Qed.

Lemma create_drawdown_chart_run :
  exists g,
    (forall w : @world G,
        builds (create_drawdown_chart w) w "create_drawdown_chart" [] g) /\
    fig_data g = [Bar (Strings strategies) (Floats drawdowns) colors] /\
    title (fig_layout g) = Some "Maximum Drawdown Comparison".
Proof.
  eexists. split; [| split].
  - intros [r h d cs cur].
    unfold builds, create_drawdown_chart, called, log_call, go_Figure,
      update_layout.
    cbn [heap rng display calls current].
    rewrite (bind_run _ _ _ _ _ (alloc_run _ _)).
    cbn [heap set_heap rng display calls current].
    change_figure.
    reflexivity.
  - reflexivity.
  - reflexivity.
Qed.

Lemma create_risk_radar_chart_run :
  exists g,
    (forall w : @world G,
        builds (create_risk_radar_chart w) w "create_risk_radar_chart" [] g)
    /\
    fig_data g
    = [Scatterpolar (Ints values) (Strings categories) "toself"
         "Our Algorithm" "#38a169" "rgba(56, 161, 105, 0.3)"] /\
    title (fig_layout g) = Some "Risk Profile Assessment".
Proof.
  eexists. split; [| split].
  - intros [r h d cs cur].
    unfold builds, create_risk_radar_chart, called, log_call, go_Figure,
      add_trace, update_layout.
    cbn [heap rng display calls current].
    rewrite (bind_run _ _ _ _ _ (alloc_run _ _)).
    cbn [heap set_heap rng display calls current].
    change_figure. change_figure.
    reflexivity.
  - reflexivity.
  - reflexivity.
Qed.

End BuilderFacts.

(** ** Running the page *)

Section PageFacts.
Context {G : Type} `{RNG G}.

Lemma bind_step {A B : Type} (c : M (G := G) A) (k : A -> M B)
  (w w1 : @world G) (a : A) (r : result B * @world G) :
  c w = (Ok a, w1) -> k a w1 = r -> (c ≫= k) w = r.
Proof. intros Hc Hk. now rewrite (bind_run _ _ _ _ _ Hc). Qed.

Lemma within_run (i : nat) (body : M unit) (w w' : @world G) :
  body (set_current (Column i) w) = (Ok tt, w') ->
  within i body w = (Ok tt, set_current (current w) w').
Proof. intros Hbody. unfold within. now rewrite Hbody. Qed.

Lemma st_plotly_chart_run (fig : loc) (g : Figure) (w : @world G) :
  heap w !! fig = Some (OFigure g) ->
  st_plotly_chart fig w = (Ok tt, emit (PlotlyChart g) w).
Proof. intros Hfig. unfold st_plotly_chart. now rewrite Hfig. Qed.

Lemma st_dataframe_run (data : loc) (df : DataFrame) (w : @world G) :
  heap w !! data = Some (ODataFrame df) ->
  st_dataframe data w = (Ok tt, emit (Dataframe df) w).
Proof. intros Hdata. unfold st_dataframe. now rewrite Hdata. Qed.

Lemma performance_frame_shape : generator_shape performance_frame = true.
Proof.
  unfold generator_shape, dates_column, floats_column, performance_frame.
  cbn [column String.eqb Ascii.eqb Bool.eqb].
  rewrite !length_scaled, length_dates. reflexivity.
Qed.

Ltac norm :=
  cbn [rng heap display calls current emit set_current set_heap set_rng
       log_call].

(** Runs the computation of a goal [c w = ?r], one call after the other;
    [builder] finishes a call of a chart builder. *)
Ltac run builder :=
  lazymatch goal with
  | |- (_ ≫= _) _ = _ =>
      eapply bind_step; [run_call builder | cbv beta; norm; run builder]
  | |- _ => run_call builder
  end
with run_call builder :=
  lazymatch goal with
  | |- st_plotly_chart _ _ = _ =>
      apply st_plotly_chart_run; norm; apply lookup_insert_eq
  | |- st_dataframe _ _ = _ =>
      apply st_dataframe_run; norm; apply lookup_insert_eq
  | |- generate_performance_data _ = _ => apply generate_run
  | |- pd_DataFrame comparison_data _ = _ => exact (alloc_run _ _)
  | |- within _ _ _ = _ => eapply within_run; norm; run builder
  | |- for_each _ _ _ = _ => cbn [for_each advantages]; run builder
  | |- create_performance_chart _ _ = _ => builder
  | |- create_drawdown_chart _ = _ => builder
  | |- create_risk_radar_chart _ = _ => builder
  | |- _ => reflexivity
  end.

Lemma main_run (w : @world G) :
  exists (page : list host_call) (perf dd radar : Figure)
    (h : gmap loc object) (data : loc),
    main w
    = (Ok tt,
       World (state_before 4) h (display w ++ page)
         (calls w ++ [("generate_performance_data", []);
                      ("create_performance_chart", [data]);
                      ("create_drawdown_chart", []);
                      ("create_risk_radar_chart", [])])
         (current w)) /\
    h !! data = Some (ODataFrame performance_frame) /\
    omap block_of page
    = [KPI; KPI; KPI; KPI;
       ChartEmbed (Some "Cumulative Performance Comparison (Sep - Nov 2025)");
       ComparisonTable;
       ChartEmbed (Some "Maximum Drawdown Comparison");
       ChartEmbed (Some "Risk Profile Assessment");
       Footer] /\
    (last page ≫= block_of) = Some Footer /\
    embedded page = [perf; dd; radar] /\
    map scatter_data (fig_data perf)
    = map (against_date performance_frame)
        ["Our_Algorithm"; "Bank_Nifty"; "Nifty_Index"; "Mutual_Funds"].
Proof.
  destruct (create_performance_chart_run (G := G)
              (Dates (take 48 (pd_date_range_B (Date 2025 9 1)
                                 (Date 2025 11 11))))
              (Floats (scaled (walk 0 2593 1500) 124477))
              (Floats (scaled (walk 1 390 600) 18750))
              (Floats (scaled (walk 2 260 400) 12500))
              (Floats (scaled (walk 3 173 250) 8333)))
    as (perf & Hperf & Hperf_data & Hperf_title).
  destruct (create_drawdown_chart_run (G := G)) as (dd & Hdd & _ & Hdd_title).
  destruct (create_risk_radar_chart_run (G := G))
    as (radar & Hradar & _ & Hradar_title).
  destruct w as [r h d cs cur].
  eexists _, perf, dd, radar, _, _.
  split.
  - etransitivity.
    + unfold main.
      run ltac:(first
        [ apply Hdd | apply Hradar
        | eapply Hperf; [norm; apply lookup_insert_eq | reflexivity ..] ]).
    + cbv [st_markdown emit set_current set_heap set_rng log_call rng heap
           display calls current].
      rewrite <- !(app_assoc d), <- !(app_assoc cs). cbn [app].
      reflexivity.
  - split; [| split; [| split; [| split]]].
    + do 4 apply lookup_after_alloc. apply lookup_insert_eq.
    + cbn. rewrite Hperf_title, Hdd_title, Hradar_title. reflexivity.
    + reflexivity.
    + reflexivity.
    + rewrite Hperf_data. reflexivity.
Qed.

End PageFacts.

(** ** The frame of the generator *)

Section FrameFacts.
Context {G : Type} `{RNG G}.

Lemma generate_frame (w : @world G) :
  frame_of (generate_performance_data w) = Some performance_frame.
Proof.
  rewrite generate_run. unfold frame_of. cbn [heap].
  now rewrite lookup_insert_eq.
Qed.

(** Rescaling a running sum by its own finite nonzero last element puts
    the target, exactly, in the last place. *)
Lemma last_scaled (xs : list float64) (final : float64) (target : Z) :
  last xs = Some final -> finite_nonzero final = true ->
  In target [124477; 18750; 12500; 8333] ->
  last (scaled xs target) = Some (of_int target).
Proof.
  intros Hlast Hfin Htarget. unfold scaled. rewrite Hlast.
  rewrite last_rescale, Hlast. cbn [option_map times divide number
    float64_arith].
  now rewrite (div_self final Hfin), (mul_one_target target Htarget).
Qed.

(** Otherwise the last place holds [nan]: the condition of [last_scaled]
    cannot be dropped. *)
Lemma last_scaled_nan (xs : list float64) (final : float64) (target : Z) :
  last xs = Some final -> finite_nonzero final = false ->
  last (scaled xs target) = Some S754_nan.
Proof.
  intros Hlast Hfin. unfold scaled. rewrite Hlast.
  rewrite last_rescale, Hlast. cbn [option_map times divide number
    float64_arith].
  rewrite (div_self_nan final Hfin). reflexivity.
Qed.

Lemma finite_finals_walk (xs : list float64) :
  finite_finals = true -> In xs walks ->
  exists final, last xs = Some final /\ finite_nonzero final = true.
Proof.
  unfold finite_finals. rewrite forallb_forall. intros Hall Hin.
  specialize (Hall xs Hin).
  destruct (last xs) as [final |]; [| discriminate].
  now exists final.
Qed.

(** Whatever is stored under [data], a call of the performance chart
    builder leaves it as it is, whether the call returns or raises. *)
Lemma create_performance_chart_frame (data : loc) (o : object)
  (w : @world G) :
  heap w !! data = Some o ->
  heap (snd (create_performance_chart data w)) !! data = Some o.
Proof.
  intros Hdata.
  pose proof (fresh_other _ _ _ Hdata) as Hne.
  destruct w as [r h d cs cur]. cbn [heap] in Hdata, Hne.
  unfold create_performance_chart, called, log_call, go_Figure, add_trace,
    update_layout.
  cbn [heap rng display calls current].
  rewrite (bind_run _ _ _ _ _ (alloc_run _ _)).
  cbn [heap set_heap rng display calls current].
  repeat
    (match goal with
     | |- context [(getitem ?l ?name ≫= ?k) ?W] =>
         let Hw := fresh "Hw" in
         let Hget := fresh "Hget" in
         let x := fresh "x" in
         let e := fresh "e" in
         let W' := fresh "w" in
         pose proof (getitem_world l name W) as Hw;
         destruct (getitem l name W) as [[x | e] W'] eqn:Hget;
         cbn [snd] in Hw; subst W';
         [ rewrite (bind_run _ _ _ _ _ Hget)
         | rewrite (bind_raise _ _ _ _ _ Hget); cbn [snd heap set_heap];
           now rewrite lookup_insert_ne ];
         clear Hget
     | |- context [(with_figure ?l ?f ≫= ?k) ?W] =>
         erewrite bind_run;
         [| apply with_figure_run; cbn [heap set_heap];
            apply lookup_insert_eq];
         cbn [heap set_heap rng display calls current];
         rewrite insert_insert_eq
     end).
  cbn [mret M_ret snd heap set_heap]. now rewrite lookup_insert_ne.
Qed.

End FrameFacts.

(** ** The series, element by element *)

Section SeriesFacts.
Context {G : Type} `{RNG G}.







End SeriesFacts.

(** * What the specification says of the script *)

Section Claims.
Context {G : Type} `{RNG G}.

Lemma column_floats_of (df : DataFrame) (name : string) (xs : list float64) :
  column df name = Some (Floats xs) -> floats_of df name = xs.
Proof. intros Hcol. unfold floats_of. now rewrite Hcol. Qed.

(** C1. When the four running sums end on finite numbers other than zero,
    the last element of every series of the frame the generator returns
    is its target, exactly: 124477 for Our_Algorithm, 18750 for
    Bank_Nifty, 12500 for Nifty_Index and 8333 for Mutual_Funds.  The
    strategy target over the best benchmark target is 6.64 to two
    decimals, an outperformance of 564 percent. *)
Theorem final_elements_equal_targets (w : @world G) :
  finite_finals (G := G) = true ->
  (exists df,
      frame_of (generate_performance_data w) = Some df /\
      last (floats_of df "Our_Algorithm") = Some (of_int 124477) /\
      last (floats_of df "Bank_Nifty") = Some (of_int 18750) /\
      last (floats_of df "Nifty_Index") = Some (of_int 12500) /\
      last (floats_of df "Mutual_Funds") = Some (of_int 8333)) /\
  (Qabs (inject_Z 124477 / inject_Z 18750 - 6.64) <= 0.005)%Q /\
  rounds_to (outperformance (inject_Z 124477) (inject_Z 18750)) 564.
Proof.
  intros Hfinite.
  assert (Hlast : forall k mean scale target,
             In (walk k mean scale) walks ->
             In target [124477; 18750; 12500; 8333] ->
             last (scaled (walk k mean scale) target) = Some (of_int target)).
  { intros k mean scale target Hin Htarget.
    destruct (finite_finals_walk _ Hfinite Hin) as (final & Hfinal & Hfin).
    now apply last_scaled with final. }
  split; [| split].
  - exists performance_frame. split; [apply generate_frame |].
    unfold floats_of, performance_frame.
    cbn [column String.eqb Ascii.eqb Bool.eqb].
    unfold walks.
    repeat split; apply Hlast; simpl In; tauto.
  - apply Qle_bool_iff. vm_compute. reflexivity.
  - split; [apply Qle_bool_iff |]; vm_compute; reflexivity.
Qed.

(** C2. The generator takes no argument and starts from the state of seed
    42 whatever the state of the world: called in any two worlds, and so
    in particular twice in a row, it returns the same frame, date for
    date and number for number, and leaves the generator in the same
    state. *)
Theorem generator_is_deterministic (w1 w2 : @world G) :
  exists df : DataFrame,
    frame_of (generate_performance_data w1) = Some df /\
    frame_of (generate_performance_data w2) = Some df /\
    frame_of (generate_performance_data (snd (generate_performance_data w1)))
    = Some df /\
    rng (snd (generate_performance_data w1)) = after 192 (np_seed 42) /\
    rng (snd (generate_performance_data w2)) = after 192 (np_seed 42).
Proof.
  exists performance_frame.
  rewrite !generate_frame, !generate_run. cbn [snd rng].
  repeat split; reflexivity.
Qed.



(** C6. One run of [main] returns and shows, in this order: four KPI
    cards, the performance chart, the comparison table, the drawdown
    chart, the risk radar chart and, last of all, the footer; no other
    card, chart, table or footer.  The generator and the three chart
    builders are called once each. *)
Theorem page_structure (w : @world G) :
  exists (w' : @world G) (page : list host_call) (data : loc),
    main w = (Ok tt, w') /\
    display w' = display w ++ page /\
    omap block_of page
    = [KPI; KPI; KPI; KPI;
       ChartEmbed (Some "Cumulative Performance Comparison (Sep - Nov 2025)");
       ComparisonTable;
       ChartEmbed (Some "Maximum Drawdown Comparison");
       ChartEmbed (Some "Risk Profile Assessment");
       Footer] /\
    (last page ≫= block_of) = Some Footer /\
    calls w'
    = calls w ++ [("generate_performance_data", []);
                  ("create_performance_chart", [data]);
                  ("create_drawdown_chart", []);
                  ("create_risk_radar_chart", [])].
Proof.
  destruct (main_run w)
    as (page & perf & dd & radar & h & data & Hrun & _ & Hblocks & Hlast & _).
  eexists _, page, data.
  split; [exact Hrun |]. cbn [display calls]. auto.
Qed.

Lemma shape_columns (df : DataFrame) :
  generator_shape df = true ->
  exists x y1 y2 y3 y4,
    column df "Date" = Some x /\
    column df "Our_Algorithm" = Some y1 /\
    column df "Bank_Nifty" = Some y2 /\
    column df "Nifty_Index" = Some y3 /\
    column df "Mutual_Funds" = Some y4.
Proof.
  unfold generator_shape, dates_column, floats_column. intros Hshape.
  do 4 (apply andb_prop in Hshape; destruct Hshape as [Hshape ?]).
  destruct (column df "Date") as [x |]; [| discriminate].
  destruct (column df "Our_Algorithm") as [y1 |]; [| discriminate].
  destruct (column df "Bank_Nifty") as [y2 |]; [| discriminate].
  destruct (column df "Nifty_Index") as [y3 |]; [| discriminate].
  destruct (column df "Mutual_Funds") as [y4 |]; [| discriminate].
  now exists x, y1, y2, y3, y4.
Qed.

Lemma builds_figure (run : result loc * @world G) (w : @world G)
  (fn : string) (args : list loc) (g : Figure) :
  builds run w fn args g -> figure_of run = Some g.
Proof.
  unfold builds. intros ->. unfold figure_of. cbn [heap].
  now rewrite lookup_insert_eq.
Qed.

(** C7. No chart builder raises.  Applied to a frame of the generator's
    shape (the five columns, 48 rows), the performance chart builder
    returns a figure; so it does on the frame the generator returns,
    whatever the generator behind it; the drawdown and the risk radar
    builders return a figure in every world. *)
Theorem chart_builders_do_not_raise (w : @world G) (data : loc)
  (df : DataFrame) :
  heap w !! data = Some (ODataFrame df) ->
  generator_shape df = true ->
  (exists g, figure_of (create_performance_chart data w) = Some g) /\
  (forall w0 : @world G,
      exists data0 w1 g,
        generate_performance_data w0 = (Ok data0, w1) /\
        figure_of (create_performance_chart data0 w1) = Some g) /\
  (forall w0 : @world G,
      exists g, figure_of (create_drawdown_chart w0) = Some g) /\
  (forall w0 : @world G,
      exists g, figure_of (create_risk_radar_chart w0) = Some g).
Proof.
  intros Hdata Hshape.
  assert (Hperf : forall (w0 : @world G) l f,
             heap w0 !! l = Some (ODataFrame f) -> generator_shape f = true ->
             exists g, figure_of (create_performance_chart l w0) = Some g).
  { intros w0 l f Hl Hf.
    destruct (shape_columns f Hf)
      as (x & y1 & y2 & y3 & y4 & Hx & Hy1 & Hy2 & Hy3 & Hy4).
    destruct (create_performance_chart_run (G := G) x y1 y2 y3 y4)
      as (g & Hg & _).
    exists g. eapply builds_figure. eapply Hg; eassumption. }
  split; [now apply Hperf with df |]. split; [| split].
  - intros w0.
    destruct (Hperf (snd (generate_performance_data w0))
                (fresh (dom (heap w0))) performance_frame) as [g Hg].
    + rewrite generate_run. cbn [snd heap]. apply lookup_insert_eq.
    + apply performance_frame_shape.
    + exists (fresh (dom (heap w0))), (snd (generate_performance_data w0)), g.
      split; [| exact Hg]. now rewrite generate_run.
  - intros w0.
    destruct (create_drawdown_chart_run (G := G)) as (g & Hg & _).
    exists g. eapply builds_figure. apply Hg.
  - intros w0.
    destruct (create_risk_radar_chart_run (G := G)) as (g & Hg & _).
    exists g. eapply builds_figure. apply Hg.
Qed.

(** C8. The frame is not changed after it is built.  The performance
    chart builder leaves the frame it is given as it is.  In [main] the
    frame goes to one call only, that of the performance chart builder;
    the chart shown plots the columns of the frame as the generator built
    them, and at the end of [main] the frame is still what the generator
    built. *)
Theorem performance_data_is_not_mutated (w : @world G) (data : loc)
  (df : DataFrame) :
  heap w !! data = Some (ODataFrame df) ->
  heap (snd (create_performance_chart data w)) !! data
  = Some (ODataFrame df) /\
  (forall w0 : @world G,
      exists (w' : @world G) (page : list host_call) (perf dd radar : Figure)
        (data0 : loc) (frame : DataFrame) (log : list (string * list loc)),
        main w0 = (Ok tt, w') /\
        (forall w1 : @world G,
            frame_of (generate_performance_data w1) = Some frame) /\
        heap w' !! data0 = Some (ODataFrame frame) /\
        display w' = display w0 ++ page /\
        embedded page = [perf; dd; radar] /\
        map scatter_data (fig_data perf)
        = map (against_date frame)
            ["Our_Algorithm"; "Bank_Nifty"; "Nifty_Index"; "Mutual_Funds"] /\
        calls w' = calls w0 ++ log /\
        consumers data0 log = [("create_performance_chart", [data0])]).
Proof.
  intros Hdata. split; [now apply create_performance_chart_frame |].
  intros w0.
  destruct (main_run w0)
    as (page & perf & dd & radar & h & data0 & Hrun & Hh & _ & _ & Hemb
        & Hxy).
  eexists _, page, perf, dd, radar, data0, performance_frame, _.
  split; [exact Hrun |].
  split; [exact generate_frame |].
  cbn [heap display calls].
  repeat (split; [first [assumption | reflexivity] |]).
  cbn [consumers List.filter existsb snd orb]. now rewrite Pos.eqb_refl.
Qed.

End Claims.

(** C4. In every row of the comparison table, the outperformance quoted
    is the relative difference (ours - best) / best of the two figures
    displayed, in percent, rounded to a whole number: 564 for 124477
    against 18750, 367 for 4.20 against 0.9. *)
Theorem comparison_table_is_consistent :
  length comparison_rows = 5%nat /\
  Forall
    (fun '(ours, (best, quoted)) =>
       rounds_to (outperformance (figure ours) (figure best)) (figure quoted))
    comparison_rows /\
  rounds_to (outperformance (inject_Z 124477) (inject_Z 18750)) 564 /\
  rounds_to (outperformance 4.20 0.9) 367.
Proof.
  assert (Hround : forall x p : Q,
             Qle_bool (Qabs (x - p)) (1 # 2) = true ->
             Qden (Qred p) = 1%positive -> rounds_to x p).
  { intros x p Hle Hden. split; [now apply Qle_bool_iff | exact Hden]. }
  split; [reflexivity |]. split; [| split].
  - set (rows := comparison_rows). vm_compute in rows. subst rows.
    repeat (apply List.Forall_cons;
            [apply Hround; vm_compute; reflexivity |]).
    apply List.Forall_nil.
  - apply Hround; vm_compute; reflexivity.
  - apply Hround; vm_compute; reflexivity.
Qed.

(** C10. The drawdown chart has four strategies and four drawdowns, bar
    for bar.  The drawdown of Our Algorithm, 19.6, is greater than each of
    the three others (12.3, 8.5 and 6.2) and less than 25, the maximum
    drawdown the page quotes as its target. *)
Theorem drawdown_literals_are_consistent :
  length strategies = 4%nat /\
  length drawdowns = 4%nat /\
  zip strategies drawdowns
  = [("Our Algorithm", literal 196 1); ("Bank Nifty", literal 123 1);
     ("Nifty Index", literal 85 1); ("Mutual Funds", literal 62 1)] /\
  Forall (fun benchmark => ltb benchmark (literal 196 1) = true)
    (tail drawdowns) /\
  In "Max Drawdown: &lt;25%" performance_targets /\
  figure "Max Drawdown: &lt;25%" = inject_Z 25 /\
  ltb (literal 196 1) (of_int 25) = true.
Proof.
  split; [reflexivity |]. split; [reflexivity |]. split; [reflexivity |].
  split.
  - unfold drawdowns. cbn [tail].
    repeat (apply List.Forall_cons; [vm_compute; reflexivity |]).
    apply List.Forall_nil.
  - split; [| split; vm_compute; reflexivity].
    unfold performance_targets. simpl In. tauto.
Qed.

(** ** The model run on the small generator *)

(** With the small generator the four running sums end on finite numbers
    other than zero, and the frame ends on the four targets. *)
Lemma final_elements_equal_targets_witness :
  finite_finals (G := Z) = true /\
  exists df,
    frame_of (generate_performance_data empty_world) = Some df /\
    last (floats_of df "Our_Algorithm") = Some (of_int 124477) /\
    last (floats_of df "Bank_Nifty") = Some (of_int 18750) /\
    last (floats_of df "Nifty_Index") = Some (of_int 12500) /\
    last (floats_of df "Mutual_Funds") = Some (of_int 8333).
Proof.
  assert (Hfinite : finite_finals (G := Z) = true)
    by (vm_compute; reflexivity).
  split; [exact Hfinite |].
  exact (proj1 (final_elements_equal_targets empty_world Hfinite)).
Defined.

(** The frame built in the empty world is object 1, and of the
    generator's shape: the performance chart builder returns a figure
    for it. *)
Lemma chart_builders_do_not_raise_witness :
  exists g,
    figure_of
      (create_performance_chart 1%positive
         (snd (generate_performance_data empty_world)))
    = Some g.
Proof.
  refine (proj1 (chart_builders_do_not_raise
                   (snd (generate_performance_data empty_world)) 1%positive
                   performance_frame _ _));
    vm_compute; reflexivity.
Defined.

(** The same frame is still object 1 after the builder has run. *)
Lemma performance_data_is_not_mutated_witness :
  heap (snd (create_performance_chart 1%positive
               (snd (generate_performance_data empty_world))))
  !! 1%positive
  = Some (ODataFrame (performance_frame (G := Z))).
Proof.
  refine (proj1 (performance_data_is_not_mutated
                   (snd (generate_performance_data empty_world)) 1%positive
                   performance_frame _)).
  vm_compute; reflexivity.
Defined.



(** * Further properties of the script *)

(** ** The store *)

Section StoreFacts.
Context {G : Type} `{RNG G}.

Lemma dom_after_alloc (h : gmap loc object) (o : object) :
  dom (<[fresh (dom h) := o]> h) = {[fresh (dom h)]} ∪ dom h.
Proof. apply dom_insert_L. Qed.

(** What [builds] says of the world after: the figure is a new object,
    the objects there before are as they were. *)
Lemma builds_effect (run : result loc * @world G) (w : @world G)
  (fn : string) (args : list loc) (g : Figure) :
  builds run w fn args g ->
  exists (fig : loc) (w' : @world G),
    run = (Ok fig, w') /\
    heap w !! fig = None /\
    heap w' !! fig = Some (OFigure g) /\
    (forall l o, heap w !! l = Some o -> heap w' !! l = Some o) /\
    dom (heap w') = {[fig]} ∪ dom (heap w) /\
    rng w' = rng w /\ display w' = display w /\ current w' = current w /\
    calls w' = calls w ++ [(fn, args)].
Proof.
  unfold builds. intros ->. eexists _, _. split; [reflexivity |].
  cbn [heap rng display calls current].
  split; [apply fresh_unused |].
  split; [apply lookup_insert_eq |].
  split; [intros l o Hl; now apply lookup_after_alloc |].
  split; [apply dom_after_alloc |]. auto.
Qed.

End StoreFacts.

(** ** The chart builders, in full *)

Ltac read_frame_column df :=
  erewrite bind_run;
  [| apply getitem_run with (df := df);
     [cbn [heap set_heap]; rewrite lookup_insert_ne by assumption;
      eassumption
     | eassumption]].

Ltac update_figure :=
  erewrite bind_run;
  [| apply with_figure_run; cbn [heap set_heap]; apply lookup_insert_eq];
  cbn [heap set_heap rng display calls current];
  rewrite insert_insert_eq.

Section BuilderEffects.
Context {G : Type} `{RNG G}.

Lemma getitem_raise (data : loc) (name : string) (df : DataFrame)
  (w : @world G) :
  heap w !! data = Some (ODataFrame df) -> column df name = None ->
  getitem data name w = (Raise (KeyError name), w).
Proof. intros Hdata Hcol. unfold getitem. now rewrite Hdata, Hcol. Qed.

(** The figure of the performance chart builder, with its legend, its
    points and its layout. *)
Lemma create_performance_chart_effect (x y1 y2 y3 y4 : series) :
  exists g,
    (forall (data : loc) (df : DataFrame) (w : @world G),
        heap w !! data = Some (ODataFrame df) ->
        column df "Date" = Some x ->
        column df "Our_Algorithm" = Some y1 ->
        column df "Bank_Nifty" = Some y2 ->
        column df "Nifty_Index" = Some y3 ->
        column df "Mutual_Funds" = Some y4 ->
        builds (create_performance_chart data w) w "create_performance_chart"
          [data] g) /\
    map scatter_data (fig_data g)
    = [Some (x, y1); Some (x, y2); Some (x, y3); Some (x, y4)] /\
    concat (map legend (fig_data g))
    = [("Our Algorithm", "#38a169"); ("Bank Nifty", "#ed8936");
       ("Nifty Index", "#3182ce"); ("Mutual Funds", "#9f7aea")] /\
    map points (fig_data g)
    = map (fun y => (series_length x, series_length y)) [y1; y2; y3; y4] /\
    fig_layout g
    = Layout (Some "Cumulative Performance Comparison (Sep - Nov 2025)")
        (Some "Date") (Some "Cumulative Returns (₹)") (Some "x unified")
        (Some "plotly_white") (Some 500) None None.
Proof.
  eexists. split; [| split; [| split; [| split]]].
  - intros data df w Hdata Hx Hy1 Hy2 Hy3 Hy4.
    pose proof (fresh_other _ _ _ Hdata) as Hne.
    destruct w as [r h d cs cur]. cbn [heap] in Hdata, Hne.
    unfold builds, create_performance_chart, called, log_call, go_Figure,
      add_trace, update_layout.
    cbn [heap rng display calls current].
    rewrite (bind_run _ _ _ _ _ (alloc_run _ _)).
    cbn [heap set_heap rng display calls current].
    read_frame_column df. read_frame_column df. update_figure.
    read_frame_column df. read_frame_column df. update_figure.
    read_frame_column df. read_frame_column df. update_figure.
    read_frame_column df. read_frame_column df. update_figure.
    update_figure.
    reflexivity.
  - reflexivity.
  - reflexivity.
  - reflexivity.
  - reflexivity.
Qed.

Lemma create_drawdown_chart_effect :
  exists g,
    (forall w : @world G,
        builds (create_drawdown_chart w) w "create_drawdown_chart" [] g) /\
    fig_data g = [Bar (Strings strategies) (Floats drawdowns) colors] /\
    fig_layout g
    = Layout (Some "Maximum Drawdown Comparison") (Some "Strategy")
        (Some "Drawdown (%)") None (Some "plotly_white") (Some 400) None None.
Proof.
  eexists. split; [| split].
  - intros [r h d cs cur].
    unfold builds, create_drawdown_chart, called, log_call, go_Figure,
      update_layout.
    cbn [heap rng display calls current].
    rewrite (bind_run _ _ _ _ _ (alloc_run _ _)).
    cbn [heap set_heap rng display calls current].
    update_figure.
    reflexivity.
  - reflexivity.
  - reflexivity.
Qed.

Lemma create_risk_radar_chart_effect :
  exists g,
    (forall w : @world G,
        builds (create_risk_radar_chart w) w "create_risk_radar_chart" [] g)
    /\
    fig_data g
    = [Scatterpolar (Ints values) (Strings categories) "toself"
         "Our Algorithm" "#38a169" "rgba(56, 161, 105, 0.3)"] /\
    fig_layout g
    = Layout (Some "Risk Profile Assessment") None None None
        (Some "plotly_white") (Some 400) (Some (true, (0, 100)))
        (Some false).
Proof.
  eexists. split; [| split].
  - intros [r h d cs cur].
    unfold builds, create_risk_radar_chart, called, log_call, go_Figure,
      add_trace, update_layout.
    cbn [heap rng display calls current].
    rewrite (bind_run _ _ _ _ _ (alloc_run _ _)).
    cbn [heap set_heap rng display calls current].
    update_figure. update_figure.
    reflexivity.
  - reflexivity.
  - reflexivity.
Qed.

End BuilderEffects.

(** ** The page, in full *)

Ltac normalise :=
  cbn [rng heap display calls current emit set_current set_heap set_rng
       log_call].

Ltac run_script builder :=
  lazymatch goal with
  | |- (_ ≫= _) _ = _ =>
      eapply bind_step;
      [run_script_call builder | cbv beta; normalise; run_script builder]
  | |- _ => run_script_call builder
  end
with run_script_call builder :=
  lazymatch goal with
  | |- st_plotly_chart _ _ = _ =>
      apply st_plotly_chart_run; normalise; apply lookup_insert_eq
  | |- st_dataframe _ _ = _ =>
      apply st_dataframe_run; normalise; apply lookup_insert_eq
  | |- generate_performance_data _ = _ => apply generate_run
  | |- pd_DataFrame comparison_data _ = _ => exact (alloc_run _ _)
  | |- within _ _ _ = _ => eapply within_run; normalise; run_script builder
  | |- for_each _ _ _ = _ => cbn [for_each advantages]; run_script builder
  | |- create_performance_chart _ _ = _ => builder
  | |- create_drawdown_chart _ = _ => builder
  | |- create_risk_radar_chart _ = _ => builder
  | |- _ => reflexivity
  end.

Section PageEffects.
Context {G : Type} `{RNG G}.

(** One run of [main], from any world: the page it shows depends on the
    container it starts in and on nothing else; five objects are created,
    one after the other. *)
Lemma main_effect :
  exists (page_of : container -> list host_call) (perf dd radar : Figure),
    (forall w : @world G,
        main w
        = (Ok tt,
           World (state_before 4)
             (store_new (OFigure radar)
                (store_new (OFigure dd)
                   (store_new (ODataFrame comparison_data)
                      (store_new (OFigure perf)
                         (store_new (ODataFrame performance_frame)
                            (heap w))))))
             (display w ++ page_of (current w))
             (calls w ++ [("generate_performance_data", []);
                          ("create_performance_chart",
                           [fresh (dom (heap w))]);
                          ("create_drawdown_chart", []);
                          ("create_risk_radar_chart", [])])
             (current w))) /\
    (forall c, embedded (page_of c) = [perf; dd; radar]) /\
    (forall c,
        cards (page_of c)
        = [["₹124,477"; "Total Returns"; "2.5 Months"];
           ["62.5%"; "Win Rate"; "Controlled Risk"];
           ["186.8%"; "Annualized Return"; "Risk-Adjusted"];
           ["4.20"; "Sharpe Ratio"; "Exceptional"]]) /\
    column_uses (page_of Page)
    = [Opened 4; Filled 1; Filled 2; Filled 3; Filled 4;
       Opened 2; Filled 1; Filled 1; Filled 2; Filled 2;
       Opened 2; Filled 1; Filled 2;
       Opened 3; Filled 1; Filled 1; Filled 2; Filled 2; Filled 3; Filled 3;
       Opened 2; Filled 1; Filled 1; Filled 2; Filled 2] /\
    map scatter_data (fig_data perf)
    = map (against_date performance_frame)
        ["Our_Algorithm"; "Bank_Nifty"; "Nifty_Index"; "Mutual_Funds"] /\
    concat (map legend (fig_data perf))
    = [("Our Algorithm", "#38a169"); ("Bank Nifty", "#ed8936");
       ("Nifty Index", "#3182ce"); ("Mutual Funds", "#9f7aea")] /\
    map points (fig_data perf)
    = [(48, 48); (48, 48); (48, 48); (48, 48)]%nat /\
    fig_data dd = [Bar (Strings strategies) (Floats drawdowns) colors] /\
    fig_data radar
    = [Scatterpolar (Ints values) (Strings categories) "toself"
         "Our Algorithm" "#38a169" "rgba(56, 161, 105, 0.3)"] /\
    radialaxis (fig_layout radar) = Some (true, (0, 100)).
Proof.
  destruct (create_performance_chart_effect (G := G)
              (Dates (take 48 (pd_date_range_B (Date 2025 9 1)
                                 (Date 2025 11 11))))
              (Floats (scaled (walk 0 2593 1500) 124477))
              (Floats (scaled (walk 1 390 600) 18750))
              (Floats (scaled (walk 2 260 400) 12500))
              (Floats (scaled (walk 3 173 250) 8333)))
    as (perf & Hperf & Hperf_data & Hperf_legend & Hperf_points & _).
  destruct (create_drawdown_chart_effect (G := G))
    as (dd & Hdd & Hdd_data & _).
  destruct (create_risk_radar_chart_effect (G := G))
    as (radar & Hradar & Hradar_data & Hradar_layout).
  eexists _, perf, dd, radar.
  split.
  - intros [r h d cs cur]. etransitivity.
    + unfold main.
      run_script ltac:(first
        [ apply Hdd | apply Hradar
        | eapply Hperf; [normalise; apply lookup_insert_eq | reflexivity ..] ]).
    + cbv [st_markdown emit set_current set_heap set_rng log_call rng heap
           display calls current].
      rewrite <- !(app_assoc d), <- !(app_assoc cs). cbn [app].
      unfold store_new.
      instantiate (1 := fun cur => _). cbv beta.
      reflexivity.
  - repeat (split; [reflexivity |]).
    split; [rewrite Hperf_data; reflexivity |].
    split; [assumption |].
    split.
    { rewrite Hperf_points. cbn [map series_length].
      now rewrite !length_scaled, length_dates. }
    repeat (split; [assumption |]).
    now rewrite Hradar_layout.
Qed.

End PageEffects.

(** ** The generator *)

Section GeneratorExtras.
Context {G : Type} `{RNG G}.

(** X1. The division by the final running sum has no guard and raises
    nothing: the generator returns in every case, and the last element
    of a series is its target when that sum is a finite number other
    than zero, and NaN when it is zero, infinite or NaN. *)
Theorem last_element_is_target_or_nan (w : @world G) :
  exists df : DataFrame,
    frame_of (generate_performance_data w) = Some df /\
    Forall
      (fun '(k, name, (mean, scale), target) =>
         exists final : float64,
           last (walk k mean scale) = Some final /\
           last (floats_of df name)
           = Some (if finite_nonzero final then of_int target
                   else S754_nan))
      [(0%nat, "Our_Algorithm", (2593, 1500), 124477);
       (1%nat, "Bank_Nifty", (390, 600), 18750);
       (2%nat, "Nifty_Index", (260, 400), 12500);
       (3%nat, "Mutual_Funds", (173, 250), 8333)].
Proof.
  exists performance_frame. split; [apply generate_frame |].
  assert (Hseries : forall k mean scale target,
             In target [124477; 18750; 12500; 8333] ->
             exists final : float64,
               last (walk k mean scale) = Some final /\
               last (scaled (walk k mean scale) target)
               = Some (if finite_nonzero final then of_int target
                       else S754_nan)).
  { intros k mean scale target Htarget.
    destruct (walk_last k mean scale) as [final Hfinal].
    exists final. split; [exact Hfinal |].
    destruct (finite_nonzero final) eqn:Hfin.
    - now apply last_scaled with final.
    - now apply last_scaled_nan with final. }
  repeat (apply List.Forall_cons; [| try apply List.Forall_nil]);
    apply Hseries; simpl In; tauto.
Qed.

(** X2. Every call of the generator returns a new object: it was not in
    the store, the objects that were are left as they are, and a second
    call returns another object that holds an equal frame. *)
Theorem generator_returns_new_object (w : @world G) :
  exists (data : loc) (w' : @world G),
    generate_performance_data w = (Ok data, w') /\
    heap w !! data = None /\
    (forall l o, heap w !! l = Some o -> heap w' !! l = Some o) /\
    dom (heap w') = {[data]} ∪ dom (heap w) /\
    exists (data2 : loc) (w'' : @world G),
      generate_performance_data w' = (Ok data2, w'') /\
      data2 <> data /\
      heap w'' !! data2 = heap w'' !! data /\
      heap w'' !! data = heap w' !! data.
Proof.
  eexists _, _. split; [apply generate_run |]. cbn [heap].
  split; [apply fresh_unused |].
  split; [intros l o Hl; now apply lookup_after_alloc |].
  split; [apply dom_insert_L |].
  eexists _, _. split; [apply generate_run |]. cbn [heap].
  assert (Hfirst :
            <[fresh (dom (heap w)) := ODataFrame performance_frame]> (heap w)
            !! fresh (dom (heap w)) = Some (ODataFrame performance_frame))
    by apply lookup_insert_eq.
  split; [exact (fresh_other _ _ _ Hfirst) |].
  rewrite lookup_insert_eq.
  rewrite (lookup_after_alloc _ _ _ _ Hfirst). rewrite Hfirst. auto.
Qed.

End GeneratorExtras.

(** With the generator whose first series sums to zero, the first series
    ends on NaN and not on 124477. *)
Lemma last_element_is_target_or_nan_witness :
  exists df : DataFrame,
    frame_of (generate_performance_data (H := zero_sum_rng) zero_sum_world)
    = Some df /\
    last (floats_of df "Our_Algorithm") = Some S754_nan.
Proof.
  destruct (last_element_is_target_or_nan (H := zero_sum_rng) zero_sum_world)
    as (df & Hdf & Hall).
  exists df. split; [exact Hdf |].
  apply List.Forall_inv in Hall. destruct Hall as (final & Hfinal & Hlast).
  assert (Hzero : last (walk (H := zero_sum_rng) 0 2593 1500)
                  = Some (S754_zero false)) by (vm_compute; reflexivity).
  rewrite Hzero in Hfinal. injection Hfinal as <-. exact Hlast.
Defined.

(** ** The chart builders *)

Ltac raise_on_column df :=
  erewrite bind_raise;
  [| apply getitem_raise with (df := df);
     [cbn [heap set_heap]; rewrite lookup_insert_ne by assumption;
      eassumption
     | eassumption]].

Section BuilderExtras.
Context {G : Type} `{RNG G}.

Lemma has_column_Some (df : DataFrame) (name : string) :
  has_column df name = true -> exists s, column df name = Some s.
Proof.
  unfold has_column. destruct (column df name) as [s |]; [| discriminate].
  now exists s.
Qed.

Lemma first_missing_None (df : DataFrame) :
  first_missing df = None ->
  exists x y1 y2 y3 y4,
    column df "Date" = Some x /\
    column df "Our_Algorithm" = Some y1 /\
    column df "Bank_Nifty" = Some y2 /\
    column df "Nifty_Index" = Some y3 /\
    column df "Mutual_Funds" = Some y4.
Proof.
  unfold first_missing, chart_columns, has_column. cbn [List.find].
  destruct (column df "Date") as [x |]; cbn [negb]; [| discriminate].
  destruct (column df "Our_Algorithm") as [y1 |]; cbn [negb];
    [| discriminate].
  destruct (column df "Bank_Nifty") as [y2 |]; cbn [negb]; [| discriminate].
  destruct (column df "Nifty_Index") as [y3 |]; cbn [negb]; [| discriminate].
  destruct (column df "Mutual_Funds") as [y4 |]; cbn [negb];
    [| discriminate].
  intros _. now exists x, y1, y2, y3, y4.
Qed.

(** The builder stops at the first column it cannot read. *)
Lemma create_performance_chart_raises (data : loc) (df : DataFrame)
  (name : string) (w : @world G) :
  heap w !! data = Some (ODataFrame df) ->
  first_missing df = Some name ->
  exists w' : @world G,
    create_performance_chart data w = (Raise (KeyError name), w') /\
    display w' = display w /\ rng w' = rng w.
Proof.
  intros Hdata Hmissing.
  pose proof (fresh_other _ _ _ Hdata) as Hne.
  destruct w as [r h d cs cur]. cbn [heap] in Hdata, Hne.
  unfold create_performance_chart, called, log_call, go_Figure, add_trace,
    update_layout.
  cbn [heap rng display calls current].
  rewrite (bind_run _ _ _ _ _ (alloc_run _ _)).
  cbn [heap set_heap rng display calls current].
  revert Hmissing.
  unfold first_missing, chart_columns, has_column. cbn [List.find].
  destruct (column df "Date") as [x |] eqn:Hx; cbn [negb].
  2: { intros [= <-]. raise_on_column df. eexists. split; [reflexivity |].
       split; reflexivity. }
  destruct (column df "Our_Algorithm") as [y1 |] eqn:Hy1; cbn [negb].
  2: { intros [= <-]. read_frame_column df. raise_on_column df.
       eexists. split; [reflexivity |]. split; reflexivity. }
  destruct (column df "Bank_Nifty") as [y2 |] eqn:Hy2; cbn [negb].
  2: { intros [= <-]. read_frame_column df. read_frame_column df.
       update_figure. read_frame_column df. raise_on_column df.
       eexists. split; [reflexivity |]. split; reflexivity. }
  destruct (column df "Nifty_Index") as [y3 |] eqn:Hy3; cbn [negb].
  2: { intros [= <-]. read_frame_column df. read_frame_column df.
       update_figure. read_frame_column df. read_frame_column df.
       update_figure. read_frame_column df. raise_on_column df.
       eexists. split; [reflexivity |]. split; reflexivity. }
  destruct (column df "Mutual_Funds") as [y4 |] eqn:Hy4; cbn [negb].
  2: { intros [= <-]. read_frame_column df. read_frame_column df.
       update_figure. read_frame_column df. read_frame_column df.
       update_figure. read_frame_column df. read_frame_column df.
       update_figure. read_frame_column df. raise_on_column df.
       eexists. split; [reflexivity |]. split; reflexivity. }
  discriminate.
Qed.

(** X3. The performance chart builder checks the presence of the five
    columns it reads and nothing else.  With all five it returns a new
    figure, whatever the columns hold; without one it raises [KeyError]
    with the name of the first column missing, in the order Date,
    Our_Algorithm, Bank_Nifty, Nifty_Index, Mutual_Funds.  In both cases
    the frame is left as it is and nothing is displayed. *)
Theorem performance_chart_needs_five_columns (w : @world G) (data : loc)
  (df : DataFrame) :
  heap w !! data = Some (ODataFrame df) ->
  exists (outcome : result loc) (w' : @world G),
    create_performance_chart data w = (outcome, w') /\
    heap w' !! data = Some (ODataFrame df) /\
    display w' = display w /\ rng w' = rng w /\
    match first_missing df with
    | Some name => outcome = Raise (KeyError name)
    | None =>
        exists (fig : loc) (g : Figure),
          outcome = Ok fig /\ heap w !! fig = None /\
          heap w' !! fig = Some (OFigure g) /\
          length (fig_data g) = 4%nat
    end.
Proof.
  intros Hdata.
  pose proof (create_performance_chart_frame data _ w Hdata) as Hframe.
  destruct (first_missing df) as [name |] eqn:Hmissing.
  - destruct (create_performance_chart_raises data df name w Hdata Hmissing)
      as (w' & Hrun & Hdisplay & Hrng).
    rewrite Hrun in Hframe. exists (Raise (KeyError name)), w'. auto.
  - destruct (first_missing_None df Hmissing)
      as (x & y1 & y2 & y3 & y4 & Hx & Hy1 & Hy2 & Hy3 & Hy4).
    destruct (create_performance_chart_effect (G := G) x y1 y2 y3 y4)
      as (g & Hg & Hg_data & _).
    destruct (builds_effect _ _ _ _ _ (Hg data df w Hdata Hx Hy1 Hy2 Hy3 Hy4))
      as (fig & w' & Hrun & Hnew & Hfig & _ & _ & Hrng & Hdisplay & _).
    rewrite Hrun in Hframe. exists (Ok fig), w'.
    repeat (split; [assumption |]).
    exists fig, g. repeat (split; [first [assumption | reflexivity] |]).
    apply (f_equal (@length _)) in Hg_data.
    now rewrite length_map in Hg_data.
Qed.

(** X4. The figure depends on the five columns only: two frames that
    agree on them, in any two worlds, give the same figure.  Other
    columns and the order of the columns do not matter. *)
Theorem performance_chart_reads_five_columns (w1 w2 : @world G)
  (data1 data2 : loc) (df1 df2 : DataFrame) :
  heap w1 !! data1 = Some (ODataFrame df1) ->
  heap w2 !! data2 = Some (ODataFrame df2) ->
  first_missing df1 = None ->
  Forall (fun name => column df2 name = column df1 name) chart_columns ->
  exists g : Figure,
    figure_of (create_performance_chart data1 w1) = Some g /\
    figure_of (create_performance_chart data2 w2) = Some g.
Proof.
  intros Hdata1 Hdata2 Hmissing Hagree.
  destruct (first_missing_None df1 Hmissing)
    as (x & y1 & y2 & y3 & y4 & Hx & Hy1 & Hy2 & Hy3 & Hy4).
  unfold chart_columns in Hagree.
  repeat match goal with
         | Hall : Forall _ (_ :: _) |- _ =>
             let Hhead := fresh "Hhead" in
             apply List.Forall_cons_iff in Hall; destruct Hall as [Hhead Hall]
         end.
  destruct (create_performance_chart_effect (G := G) x y1 y2 y3 y4)
    as (g & Hg & _).
  exists g. split; eapply builds_figure; eapply Hg; try eassumption;
    congruence.
Qed.

(** X5. The drawdown and the risk radar builders each create one new
    figure, the same in every world, and do nothing else: the objects in
    the store stay as they are, nothing is displayed and no random number
    is drawn. *)
Theorem literal_builders_footprint :
  exists dd radar : Figure,
    forall w : @world G,
      (exists (fig : loc) (w' : @world G),
          create_drawdown_chart w = (Ok fig, w') /\
          heap w !! fig = None /\
          heap w' !! fig = Some (OFigure dd) /\
          (forall l o, heap w !! l = Some o -> heap w' !! l = Some o) /\
          dom (heap w') = {[fig]} ∪ dom (heap w) /\
          rng w' = rng w /\ display w' = display w) /\
      (exists (fig : loc) (w' : @world G),
          create_risk_radar_chart w = (Ok fig, w') /\
          heap w !! fig = None /\
          heap w' !! fig = Some (OFigure radar) /\
          (forall l o, heap w !! l = Some o -> heap w' !! l = Some o) /\
          dom (heap w') = {[fig]} ∪ dom (heap w) /\
          rng w' = rng w /\ display w' = display w).
Proof.
  destruct (create_drawdown_chart_effect (G := G)) as (dd & Hdd & _).
  destruct (create_risk_radar_chart_effect (G := G)) as (radar & Hradar & _).
  exists dd, radar. intros w. split.
  - destruct (builds_effect _ _ _ _ _ (Hdd w))
      as (fig & w' & Hrun & Hnew & Hfig & Hkeep & Hdom & Hrng & Hdisplay & _).
    exists fig, w'. auto 10.
  - destruct (builds_effect _ _ _ _ _ (Hradar w))
      as (fig & w' & Hrun & Hnew & Hfig & Hkeep & Hdom & Hrng & Hdisplay & _).
    exists fig, w'. auto 10.
Qed.

End BuilderExtras.

(** ** The page *)

Section PageExtras.
Context {G : Type} `{RNG G}.

Lemma lookup_store_new (h : gmap loc object) (l : loc) (o o' : object) :
  h !! l = Some o -> store_new o' h !! l = Some o.
Proof. apply lookup_after_alloc. Qed.

Lemma size_store_new (h : gmap loc object) (o : object) :
  size (store_new o h) = S (size h).
Proof. apply map_size_insert_None, fresh_unused. Qed.

Lemma st_write_run (s : string) (w : @world G) :
  st_write s w = (Ok tt, emit (Written s) w).
Proof. reflexivity. Qed.

(** The loop of lines 352-353, over any list of lines. *)
Lemma for_each_write (prefix : string) (lines : list string) (w : @world G) :
  for_each lines (fun line => st_write (prefix ++ line)%string) w
  = (Ok tt,
     World (rng w) (heap w)
       (display w
        ++ map (fun line => Shown (current w) (Written (prefix ++ line)%string))
             lines)
       (calls w) (current w)).
Proof.
  revert w. induction lines as [| line rest IH]; intros [r h d cs cur].
  - cbn [for_each map]. now rewrite app_nil_r.
  - cbn [for_each map].
    rewrite (bind_run _ _ _ _ _ (st_write_run _ _)).
    rewrite IH. cbn [rng heap display calls current emit].
    now rewrite <- app_assoc.
Qed.

(** X6. The loop over the advantages writes one line for each element of
    the list, in the order of the list, each after the check mark, in the
    container it runs in; it never raises and changes nothing else.  So
    for every list, the empty one included. *)
Theorem advantages_loop_writes_each_line (lines : list string)
  (w : @world G) :
  exists w' : @world G,
    for_each lines (fun advantage => st_write ("✅ " ++ advantage)%string) w
    = (Ok tt, w') /\
    display w'
    = display w
      ++ map (fun advantage =>
                Shown (current w) (Written ("✅ " ++ advantage)%string))
           lines /\
    heap w' = heap w /\ rng w' = rng w /\ current w' = current w.
Proof.
  eexists. split; [apply for_each_write |]. auto.
Qed.

(** X7. The page is the same on every run.  What [main] displays depends
    on nothing but the container it starts in: not on the state of the
    random generator, not on the objects in the store, not on what is
    displayed already.  Run again, it displays the same page once more.
    It returns in every world and leaves the container as it found it. *)
Theorem page_is_the_same_on_every_run :
  exists page_of : container -> list host_call,
    forall w : @world G,
    exists w' w'' : @world G,
      main w = (Ok tt, w') /\
      main w' = (Ok tt, w'') /\
      display w' = display w ++ page_of (current w) /\
      display w''
      = display w ++ page_of (current w) ++ page_of (current w) /\
      current w' = current w /\
      rng w' = after 192 (np_seed 42) /\
      rng w'' = rng w'.
Proof.
  destruct (main_effect (G := G)) as (page_of & perf & dd & radar & Hrun & _).
  exists page_of. intros w. eexists _, _.
  split; [apply Hrun |]. split; [apply Hrun |].
  cbn [display current rng]. rewrite <- app_assoc. auto 10.
Qed.

(** X8. [main] creates five objects and touches no other: the frame of
    the generator, the performance figure, the comparison table, the
    drawdown figure and the radar figure.  Every object that was in the
    store is still there, unchanged. *)
Theorem main_creates_five_objects (w : @world G) :
  exists (w' : @world G) (perf dd radar : Figure)
    (l1 l2 l3 l4 l5 : loc),
    main w = (Ok tt, w') /\
    (forall l o, heap w !! l = Some o -> heap w' !! l = Some o) /\
    size (heap w') = (size (heap w) + 5)%nat /\
    Forall (fun l => heap w !! l = None) [l1; l2; l3; l4; l5] /\
    heap w' !! l1 = Some (ODataFrame performance_frame) /\
    heap w' !! l2 = Some (OFigure perf) /\
    heap w' !! l3 = Some (ODataFrame comparison_data) /\
    heap w' !! l4 = Some (OFigure dd) /\
    heap w' !! l5 = Some (OFigure radar).
Proof.
  destruct (main_effect (G := G)) as (page_of & perf & dd & radar & Hrun & _).
  set (h0 := heap w).
  set (h1 := store_new (ODataFrame performance_frame) h0).
  set (h2 := store_new (OFigure perf) h1).
  set (h3 := store_new (ODataFrame comparison_data) h2).
  set (h4 := store_new (OFigure dd) h3).
  assert (Hkeep : forall (h : gmap loc object) o' l o,
             h !! l = Some o -> store_new o' h !! l = Some o)
    by (intros; now apply lookup_store_new).
  assert (Hnew : forall (h : gmap loc object) o,
             store_new o h !! fresh (dom h) = Some o)
    by (intros; apply lookup_insert_eq).
  assert (Hold : forall (h : gmap loc object) o l,
             store_new o h !! l = None -> h !! l = None).
  { intros h o l Hl. destruct (h !! l) as [o' |] eqn:Hl'; [| reflexivity].
    now rewrite (Hkeep h o l o' Hl') in Hl. }
  eexists _, perf, dd, radar,
    (fresh (dom h0)), (fresh (dom h1)), (fresh (dom h2)), (fresh (dom h3)),
    (fresh (dom h4)).
  split; [apply Hrun |]. cbn [heap]. fold h0 h1 h2 h3 h4.
  split; [intros l o Hl; now do 5 apply Hkeep |].
  split; [unfold h4, h3, h2, h1; rewrite !size_store_new; lia |].
  split.
  - repeat (apply List.Forall_cons; [| try apply List.Forall_nil]).
    + apply fresh_unused.
    + apply (Hold h0 (ODataFrame performance_frame)), fresh_unused.
    + apply (Hold h0 (ODataFrame performance_frame)),
        (Hold h1 (OFigure perf)), fresh_unused.
    + apply (Hold h0 (ODataFrame performance_frame)),
        (Hold h1 (OFigure perf)), (Hold h2 (ODataFrame comparison_data)),
        fresh_unused.
    + apply (Hold h0 (ODataFrame performance_frame)),
        (Hold h1 (OFigure perf)), (Hold h2 (ODataFrame comparison_data)),
        (Hold h3 (OFigure dd)), fresh_unused.
  - split; [do 4 apply Hkeep; apply Hnew |].
    split; [do 3 apply Hkeep; apply Hnew |].
    split; [do 2 apply Hkeep; apply Hnew |].
    split; [apply Hkeep, Hnew | apply Hnew].
Qed.

(** X9. On the page, every element shown inside a [with] block goes to a
    column that the last [st.columns] call opened: to column 1 to 4 after
    [st.columns(4)], 1 to 3 after [st.columns(3)], 1 or 2 after
    [st.columns(2)]; and every column opened is written to. *)
Theorem columns_written_are_open :
  exists page_of : container -> list host_call,
    (forall w : @world G,
        exists w' : @world G,
          main w = (Ok tt, w') /\
          display w' = display w ++ page_of (current w)) /\
    columns_in_range 0 (column_uses (page_of Page)) = true /\
    columns_all_filled (column_uses (page_of Page)) = true.
Proof.
  destruct (main_effect (G := G))
    as (page_of & perf & dd & radar & Hrun & _ & _ & Hcolumns & _).
  exists page_of. split; [| rewrite Hcolumns; split; reflexivity].
  intros w. eexists. split; [apply Hrun | reflexivity].
Qed.

End PageExtras.

(** ** The charts and the figures of the page *)

Section ChartExtras.
Context {G : Type} `{RNG G}.

(** X10. The three charts of the page agree on the strategies: the lines
    of the performance chart and the bars of the drawdown chart have the
    same names and the same colours, in the same order, and the radar
    chart is drawn in the name and colour of Our Algorithm. *)
Theorem legends_agree (w : @world G) :
  exists (w' : @world G) (page : list host_call) (perf dd radar : Figure),
    main w = (Ok tt, w') /\
    display w' = display w ++ page /\
    embedded page = [perf; dd; radar] /\
    length (concat (map legend (fig_data perf))) = 4%nat /\
    concat (map legend (fig_data dd)) = concat (map legend (fig_data perf)) /\
    concat (map legend (fig_data radar))
    = take 1 (concat (map legend (fig_data perf))).
Proof.
  destruct (main_effect (G := G))
    as (page_of & perf & dd & radar & Hrun & Hemb & _ & _ & _ & Hlegend & _
        & Hdd & Hradar & _).
  eexists _, (page_of (current w)), perf, dd, radar.
  split; [apply Hrun |]. split; [reflexivity |]. split; [apply Hemb |].
  rewrite Hlegend, Hdd, Hradar. repeat split; reflexivity.
Qed.

(** X11. Every chart of the page has as many values on one axis as on the
    other: 48 dates and 48 numbers in each of the four lines, four bars
    with four names and four colours, five radar scores for five
    categories; and every radar score lies within the range of the
    radial axis. *)
Theorem chart_axes_match (w : @world G) :
  exists (w' : @world G) (page : list host_call) (perf dd radar : Figure),
    main w = (Ok tt, w') /\
    display w' = display w ++ page /\
    embedded page = [perf; dd; radar] /\
    map points (fig_data perf) = [(48, 48); (48, 48); (48, 48); (48, 48)]%nat /\
    (exists names heights bar_colours,
        fig_data dd = [Bar (Strings names) (Floats heights) bar_colours] /\
        length names = 4%nat /\ length heights = 4%nat /\
        length bar_colours = 4%nat) /\
    (exists scores axes fill name line fillcolor low high,
        fig_data radar
        = [Scatterpolar (Ints scores) (Strings axes) fill name line
             fillcolor] /\
        length scores = 5%nat /\ length axes = 5%nat /\
        radialaxis (fig_layout radar) = Some (true, (low, high)) /\
        Forall (fun score => low <= score <= high) scores).
Proof.
  destruct (main_effect (G := G))
    as (page_of & perf & dd & radar & Hrun & Hemb & _ & _ & _ & _ & Hpoints
        & Hdd & Hradar & Haxis).
  eexists _, (page_of (current w)), perf, dd, radar.
  split; [apply Hrun |]. split; [reflexivity |]. split; [apply Hemb |].
  split; [exact Hpoints |]. split.
  - eexists _, _, _. split; [exact Hdd |]. repeat split; reflexivity.
  - eexists _, _, _, _, _, _, _, _. split; [exact Hradar |].
    split; [reflexivity |]. split; [reflexivity |]. split; [exact Haxis |].
    unfold values. repeat (apply List.Forall_cons; [lia |]).
    apply List.Forall_nil.
Qed.

(** X12. The figures of the page agree with one another.  Every metric
    card repeats the figure the comparison table gives for Our Algorithm
    under the same metric.  When the running sums end on finite numbers
    other than zero, the line of Our Algorithm ends on the Total Returns
    of Our Algorithm and the line of Bank Nifty on the Total Returns of
    the best traditional investment, as the table displays them. *)
Theorem cards_agree_with_table_and_chart (w : @world G) :
  finite_finals (G := G) = true ->
  exists (w' : @world G) (page : list host_call) (perf dd radar : Figure)
    (x : series) (ours bank : list float64)
    (rest : list (option (series * series))),
    main w = (Ok tt, w') /\
    display w' = display w ++ page /\
    embedded page = [perf; dd; radar] /\
    length (cards page) = 4%nat /\
    Forall
      (fun card =>
         exists value label remark,
           card = [value; label; remark] /\
           cell comparison_data "Metric" label "Our Algorithm" = Some value)
      (cards page) /\
    map scatter_data (fig_data perf)
    = Some (x, Floats ours) :: Some (x, Floats bank) :: rest /\
    (exists total,
        cell comparison_data "Metric" "Total Returns" "Our Algorithm"
        = Some total /\
        last ours = Some (of_int (whole (figure total)))) /\
    (exists total,
        cell comparison_data "Metric" "Total Returns" "Best Traditional"
        = Some total /\
        last bank = Some (of_int (whole (figure total)))).
Proof.
  intros Hfinite.
  destruct (main_effect (G := G))
    as (page_of & perf & dd & radar & Hrun & Hemb & Hcards & _ & Hdata & _).
  assert (Hlast : forall k mean scale target,
             In (walk k mean scale) walks ->
             In target [124477; 18750; 12500; 8333] ->
             last (scaled (walk k mean scale) target) = Some (of_int target)).
  { intros k mean scale target Hin Htarget.
    destruct (finite_finals_walk _ Hfinite Hin) as (final & Hfinal & Hfin).
    now apply last_scaled with final. }
  eexists _, (page_of (current w)), perf, dd, radar, _, _, _, _.
  split; [apply Hrun |]. split; [reflexivity |]. split; [apply Hemb |].
  rewrite Hcards.
  split; [reflexivity |]. split.
  { repeat (apply List.Forall_cons;
            [eexists _, _, _; split; reflexivity |]).
    apply List.Forall_nil. }
  split; [rewrite Hdata; reflexivity |]. split.
  - eexists. split; [reflexivity |].
    change (of_int (whole (figure "₹124,477"))) with (of_int 124477).
    apply Hlast; [unfold walks |]; simpl In; tauto.
  - eexists. split; [reflexivity |].
    change (of_int (whole (figure "₹18,750"))) with (of_int 18750).
    apply Hlast; [unfold walks |]; simpl In; tauto.
Qed.

End ChartExtras.

(** ** The date index *)

Section DateExtras.






End DateExtras.

Section IndexExtras.
Context {G : Type} `{RNG G}.

(** X14. The slice [[:48]] cuts the date index short of the range asked
    for: the range from 2025-09-01 to 2025-11-11 has 52 business days,
    the index keeps the first 48 and ends on 2025-11-05; the 6th, 7th,
    10th and 11th of November are not in the frame. *)
Theorem date_index_stops_before_the_range_ends (w : @world G) :
  exists (df : DataFrame) (dates : list date),
    frame_of (generate_performance_data w) = Some df /\
    column df "Date" = Some (Dates dates) /\
    pd_date_range_B (Date 2025 9 1) (Date 2025 11 11)
    = dates ++ [Date 2025 11 6; Date 2025 11 7; Date 2025 11 10;
                Date 2025 11 11] /\
    last dates = Some (Date 2025 11 5).
Proof.
  exists performance_frame. eexists.
  split; [apply generate_frame |]. split; [reflexivity |].
  split; vm_compute; reflexivity.
Qed.

End IndexExtras.

(** ** The further properties at work *)

(** Object 2 of [three_frames] lacks Nifty_Index and Mutual_Funds: the
    builder raises for Nifty_Index, the first of the two it reads. *)
Lemma performance_chart_needs_five_columns_witness :
  exists w' : world (G := Z),
    create_performance_chart 2%positive three_frames
    = (Raise (KeyError "Nifty_Index"), w').
Proof.
  assert (Hdata : heap three_frames !! 2%positive
                  = Some (ODataFrame incomplete_frame))
    by (vm_compute; reflexivity).
  destruct (performance_chart_needs_five_columns three_frames 2%positive
              incomplete_frame Hdata)
    as (outcome & w' & Hrun & _ & _ & _ & Houtcome).
  change (first_missing incomplete_frame) with (Some "Nifty_Index")
    in Houtcome.
  exists w'. now rewrite <- Houtcome.
Defined.

(** Objects 1 and 3 of [three_frames] agree on the five columns: the
    builder gives the same figure for both. *)
Lemma performance_chart_reads_five_columns_witness :
  exists g : Figure,
    figure_of (create_performance_chart 1%positive three_frames) = Some g /\
    figure_of (create_performance_chart 3%positive three_frames) = Some g.
Proof.
  assert (Hagree : Forall (fun name =>
                             column extended_frame name
                             = column (performance_frame (G := Z)) name)
                     chart_columns).
  { unfold chart_columns.
    repeat (apply List.Forall_cons; [vm_compute; reflexivity |]).
    apply List.Forall_nil. }
  assert (Hdata1 : heap three_frames !! 1%positive
                   = Some (ODataFrame (performance_frame (G := Z))))
    by (vm_compute; reflexivity).
  assert (Hdata3 : heap three_frames !! 3%positive
                   = Some (ODataFrame extended_frame))
    by (vm_compute; reflexivity).
  assert (Hall : first_missing (performance_frame (G := Z)) = None)
    by (vm_compute; reflexivity).
  exact (performance_chart_reads_five_columns three_frames three_frames
           1%positive 3%positive performance_frame extended_frame
           Hdata1 Hdata3 Hall Hagree).
Defined.

(** With the small generator, the line of Our Algorithm ends on the
    figure of the first metric card. *)
Lemma cards_agree_with_table_and_chart_witness :
  exists (perf : Figure) (x : series) (ours : list float64)
    (rest : list (option (series * series))),
    map scatter_data (fig_data perf) = Some (x, Floats ours) :: rest /\
    last ours = Some (of_int 124477).
Proof.
  assert (Hfinite : finite_finals (G := Z) = true)
    by (vm_compute; reflexivity).
  destruct (cards_agree_with_table_and_chart empty_world Hfinite)
    as (w' & page & perf & dd & radar & x & ours & bank & rest & _ & _ & _ & _
        & _ & Hdata & (total & Htotal & Hlast) & _).
  exists perf, x, ours, (Some (x, Floats bank) :: rest).
  split; [exact Hdata |].
  injection Htotal as <-. exact Hlast.
Defined.

